(** * A shallow embedding of the quantitative handicapping engine

    Source files embedded here:
    - [deployment_package/config.py]: the scoring constants;
    - [deployment_package/quantitative_analysis.py]: class
      [QuantitativeAnalyzer] (speed, position, weight veto, training and
      interference scorers, [analyze_horse], [rank_horses],
      [generate_trio_picks]);
    - [deployment_package/backtester.py]: the per-race part of
      [Backtester.run] (horse selection and hit flags) and
      [_get_actual_ranks].

    Conventions.
    - A Python [float] is a rational number [Q]: arithmetic is exact, and
      [==] on floats is [Qeq].  Binary64 rounding error is outside the model.
    - A Python [str] is a [string] of UTF-8 bytes.  Substring tests, equality
      and the lexicographic order on bytes agree with those on code points.
    - A Python [dict] with a fixed set of keys is a record whose fields carry
      the key names; a key that may be absent is an [option] field.
    - A statement that may raise returns a [result]. *)

From Stdlib Require Import ZArith QArith Qround Qabs Lqa Lia.
From Stdlib Require Import List String Ascii Bool DecimalString.
From Stdlib Require Import Permutation Sorted.
Import ListNotations.

Set Implicit Arguments.

(* ================================================================== *)
(** * Python primitives *)
(* ================================================================== *)
Module Py.

Local Open Scope string_scope.

(** ** Exceptions *)

Inductive exn : Type :=
| KeyError (key : string)
| IndexError
| TypeError.

Inductive result (A : Type) : Type :=
| Ok (a : A)
| Raise (e : exn).

Arguments Ok {A} a.
Arguments Raise {A} e.

Definition bind {A B : Type} (m : result A) (k : A -> result B) : result B :=
  match m with
  | Ok a => k a
  | Raise e => Raise e
  end.

(** [d[key]] on a key that may be absent. *)
Definition subscript {A : Type} (key : string) (v : option A) : result A :=
  match v with
  | Some a => Ok a
  | None => Raise (KeyError key)
  end.

(** [for x in l: acc = body(x, acc)], where the body may raise. *)
Fixpoint for_each {A S : Type} (body : A -> S -> result S) (l : list A) (acc : S)
  : result S :=
  match l with
  | [] => Ok acc
  | x :: l' => bind (body x acc) (for_each body l')
  end.

(** ** Numbers *)

Definition Qltb (x y : Q) : bool := negb (Qle_bool y x).

(** Truth value of a number: [if x:] is [x != 0]. *)
Definition truthy (x : Q) : bool := negb (Qeq_bool x 0).

Definition Qmax (x y : Q) : Q := if Qle_bool x y then y else x.
Definition Qmin (x y : Q) : Q := if Qle_bool x y then x else y.

Definition Qsum (l : list Q) : Q := fold_right Qplus 0%Q l.

(** [np.mean]. *)
Definition mean (l : list Q) : Q := Qsum l / inject_Z (Z.of_nat (List.length l)).

(** The square of [np.std] (population standard deviation). *)
Definition variance (l : list Q) : Q :=
  let m := mean l in mean (map (fun x => (x - m) * (x - m))%Q l).

(** Nearest integer, ties to the even one: the rounding of [round]. *)
Definition round_half_even (x : Q) : Z :=
  let f := Qfloor x in
  match (x - inject_Z f ?= 1 # 2)%Q with
  | Lt => f
  | Gt => (f + 1)%Z
  | Eq => if Z.even f then f else (f + 1)%Z
  end.

Definition pow10 (nd : nat) : Z := (10 ^ Z.of_nat nd)%Z.

(** [round(x, nd)]. *)
Definition round (x : Q) (nd : nat) : Q :=
  (inject_Z (round_half_even (x * inject_Z (pow10 nd))) / inject_Z (pow10 nd))%Q.

(** [round(sqrt(v), nd)] for [0 <= v], computed exactly: with
    [y = v * 10^(2 nd)] and [n = floor (sqrt y)], the root lies above
    [n + 1/2] exactly when [y] lies above [(n + 1/2)^2]. *)
Definition round_sqrt (v : Q) (nd : nat) : Q :=
  let y := (v * inject_Z (pow10 nd) * inject_Z (pow10 nd))%Q in
  let n := Z.sqrt (Qfloor y) in
  let h := (inject_Z n + (1 # 2))%Q in
  let k := match (y ?= h * h)%Q with
           | Lt => n
           | Gt => (n + 1)%Z
           | Eq => if Z.even n then n else (n + 1)%Z
           end in
  (inject_Z k / inject_Z (pow10 nd))%Q.

(** ** Lists *)

(** [l[:n]]: a negative bound counts from the end. *)
Definition slice_to {A : Type} (n : Z) (l : list A) : list A :=
  if (n <? 0)%Z
  then firstn (List.length l - Z.to_nat (- n)) l
  else firstn (Z.to_nat n) l.

(** [x in l] for a list, by the equality test [eqb]. *)
Definition list_in {A : Type} (eqb : A -> A -> bool) (x : A) (l : list A) : bool :=
  existsb (eqb x) l.

(** [next((x for x in l if p(x)), None)]. *)
Definition next {A : Type} (p : A -> bool) (l : list A) : option A := find p l.

(** ** Strings *)

(** [needle in hay]. *)
Fixpoint str_in (needle hay : string) : bool :=
  prefix needle hay ||
  match hay with
  | EmptyString => false
  | String _ rest => str_in needle rest
  end.

Definition ascii_upper (c : ascii) : ascii :=
  let n := nat_of_ascii c in
  if (97 <=? n)%nat && (n <=? 122)%nat then ascii_of_nat (n - 32) else c.

(** [s.upper()] on the ASCII letters; other bytes are kept. *)
Fixpoint upper (s : string) : string :=
  match s with
  | EmptyString => EmptyString
  | String c rest => String (ascii_upper c) (upper rest)
  end.

Fixpoint str_filter (p : ascii -> bool) (s : string) : string :=
  match s with
  | EmptyString => EmptyString
  | String c rest => if p c then String c (str_filter p rest) else str_filter p rest
  end.

(** [s.replace(c, "")] for a one-character [c]. *)
Definition remove_char (c : ascii) (s : string) : string :=
  str_filter (fun d => negb (Ascii.eqb d c)) s.

(** [s.split(c)] for a one-character separator. *)
Fixpoint split (c : ascii) (s : string) : list string :=
  match s with
  | EmptyString => [EmptyString]
  | String d rest =>
      if Ascii.eqb d c then EmptyString :: split c rest
      else match split c rest with
           | [] => [String d EmptyString]
           | hd :: tl => String d hd :: tl
           end
  end.

(** [sep.join(l)]. *)
Fixpoint join (sep : string) (l : list string) : string :=
  match l with
  | [] => EmptyString
  | [x] => x
  | x :: rest => x ++ sep ++ join sep rest
  end.

Definition is_digit (c : ascii) : bool :=
  let n := nat_of_ascii c in (48 <=? n)%nat && (n <=? 57)%nat.

Fixpoint all_chars (p : ascii -> bool) (s : string) : bool :=
  match s with
  | EmptyString => true
  | String c rest => p c && all_chars p rest
  end.

(** [s.isdigit()] on ASCII strings. *)
Definition isdigit (s : string) : bool :=
  negb (String.eqb s EmptyString) && all_chars is_digit s.

Definition digit_val (c : ascii) : Z := Z.of_nat (nat_of_ascii c - 48).

Fixpoint digits_val (acc : Z) (s : string) : Z :=
  match s with
  | EmptyString => acc
  | String c rest => digits_val (10 * acc + digit_val c) rest
  end.

(** [int(s)] for a string of decimal digits. *)
Definition int_of_digits (s : string) : Z := digits_val 0 s.

(** [str(n)] for an integer. *)
Definition str_of_Z (n : Z) : string := NilZero.string_of_int (Z.to_int n).

(** [float(s)] for a string over the characters [0-9] and [.]: digits with at
    most one point and at least one digit; anything else raises
    [ValueError], rendered as [None]. *)
Definition float_of_string (s : string) : option Q :=
  match split "." s with
  | [i] =>
      if isdigit i then Some (inject_Z (int_of_digits i)) else None
  | [i; f] =>
      if all_chars is_digit i && all_chars is_digit f
         && negb (String.eqb (i ++ f) EmptyString)
      then Some (inject_Z (int_of_digits i)
                 + inject_Z (int_of_digits f)
                   / inject_Z (pow10 (String.length f)))%Q
      else None
  | _ => None
  end.

(** Stable sort by an integer key: [sorted(l, key=key)]. *)
Section SortByKey.
Variable A : Type.
Variable key : A -> Z.

Fixpoint insert_by (x : A) (l : list A) : list A :=
  match l with
  | [] => [x]
  | y :: l' => if (key x <=? key y)%Z then x :: y :: l' else y :: insert_by x l'
  end.

Definition sorted_by (l : list A) : list A := fold_right insert_by [] l.
End SortByKey.

(** Stable sort of strings by code points: [sorted(l)]. *)
Fixpoint insert_str (x : string) (l : list string) : list string :=
  match l with
  | [] => [x]
  | y :: l' => if String.leb x y then x :: y :: l' else y :: insert_str x l'
  end.

Definition sorted_str (l : list string) : list string := fold_right insert_str [] l.

(** A [set] of strings, kept in insertion order without repeats. *)
Definition set_add (x : string) (s : list string) : list string :=
  if list_in String.eqb x s then s else (s ++ [x])%list.

(** A [dict] with string keys, in insertion order: [d[k] = v] keeps the place
    of a key that is already there and appends a new one. *)
Section Dict.
Variable V : Type.

Fixpoint dict_set (k : string) (v : V) (d : list (string * V)) : list (string * V) :=
  match d with
  | [] => [(k, v)]
  | (k', v') :: d' =>
      if String.eqb k' k then (k', v) :: d' else (k', v') :: dict_set k v d'
  end.

(** [d.get(k)]. *)
Fixpoint dict_get (k : string) (d : list (string * V)) : option V :=
  match d with
  | [] => None
  | (k', v') :: d' => if String.eqb k' k then Some v' else dict_get k d'
  end.
End Dict.

(** ** Formatted text

    An f-string is kept as its pieces: the literal parts and the values
    formatted into it.  The text is empty exactly when it has no piece. *)
Inductive piece : Type :=
| Lit (s : string)            (* literal text *)
| FInt (n : Z)                (* an integer, [{n}] *)
| FNum (x : Q)                (* a number, [{x}] *)
| FSigned1 (x : Q).           (* a number, [{x:+.1f}] *)

Definition text : Type := list piece.

Definition piece_eqb (p q : piece) : bool :=
  match p, q with
  | Lit s, Lit t => String.eqb s t
  | FInt n, FInt m => Z.eqb n m
  | FNum x, FNum y => Qeq_bool x y
  | FSigned1 x, FSigned1 y => Qeq_bool x y
  | _, _ => false
  end.

Fixpoint list_eqb {A : Type} (eqb : A -> A -> bool) (l1 l2 : list A) : bool :=
  match l1, l2 with
  | [], [] => true
  | x :: l1', y :: l2' => eqb x y && list_eqb eqb l1' l2'
  | _, _ => false
  end.

Definition text_eqb : text -> text -> bool := list_eqb piece_eqb.

Definition option_eqb {A : Type} (eqb : A -> A -> bool) (o1 o2 : option A) : bool :=
  match o1, o2 with
  | None, None => true
  | Some x, Some y => eqb x y
  | _, _ => false
  end.

End Py.

(* ================================================================== *)
(** * config.py: the scoring constants *)
(* ================================================================== *)
Module Config.

Local Open Scope string_scope.

Definition POSITION_WEIGHTS : list (string * Q) :=
  [("4M", 50%Q); ("3M", 40%Q); ("2M", 30%Q);
   ("F", 20%Q); ("M", 10%Q); ("C", 5%Q); ("W", 0%Q)].

Definition W_BONUS_ON_PLACEMENT : Q := 30.
Definition WEIGHT_VETO_THRESHOLD : Q := 5.
Definition TRAINING_MIN_COUNT : Z := 14.
Definition TRAINING_STRONG_BONUS : Q := 40.
Definition TRAINING_BASE_PER_SESSION : Q := 2.
Definition RECENT_RACES_COUNT : Z := 5.

End Config.

(* ================================================================== *)
(** * quantitative_analysis.py: the data *)
(* ================================================================== *)

(** One past race of a horse, a dict of [race_history].  A missing key
    holds the default the code reads it with: [0] for [s1f] and [g1f], [99]
    for [ord], the empty string for [pos], [corner] and [rcDate], ["0"] for
    [rcTime].  [weight] is [None] when [float] rejects the value. *)
Module Race.
Record t : Type := mk {
  rcDate : string;
  s1f : Q;
  g1f : Q;
  ord : Z;
  pos : string;
  corner : string;
  weight : option Q;
  rcTime : string
}.
End Race.

(** One training session, a dict of [training_records]; both keys are read
    through [str], a missing one as the empty string. *)
Module TrainingRecord.
Record t : Type := mk {
  type : string;
  trGbn : string
}.
End TrainingRecord.

(** One steward report, a dict of [steward_reports]. *)
Module Report.
Record t : Type := mk {
  date : string;
  report : string
}.
End Report.

(** The dict [calc_speed_score] returns. *)
Module Speed.
Record t : Type := mk {
  s1f_avg : Q;
  s1f_std : Q;
  g1f_avg : Q;
  g1f_std : Q;
  g1f_vector : string;
  speed_score : Q
}.

Definition eqb (a b : t) : bool :=
  Qeq_bool (s1f_avg a) (s1f_avg b) && Qeq_bool (s1f_std a) (s1f_std b)
  && Qeq_bool (g1f_avg a) (g1f_avg b) && Qeq_bool (g1f_std a) (g1f_std b)
  && String.eqb (g1f_vector a) (g1f_vector b)
  && Qeq_bool (speed_score a) (speed_score b).
End Speed.

(** The dict [calc_position_score] returns. *)
Module Position.
Record detail : Type := mk_detail {
  d_ord : Z;
  d_pos : string;
  d_corner : string;
  d_score : Q
}.

Record t : Type := mk {
  position_score : Q;
  w_bonus_count : Z;
  details : list detail
}.

Definition detail_eqb (a b : detail) : bool :=
  Z.eqb (d_ord a) (d_ord b) && String.eqb (d_pos a) (d_pos b)
  && String.eqb (d_corner a) (d_corner b) && Qeq_bool (d_score a) (d_score b).

Definition eqb (a b : t) : bool :=
  Qeq_bool (position_score a) (position_score b)
  && Z.eqb (w_bonus_count a) (w_bonus_count b)
  && Py.list_eqb detail_eqb (details a) (details b).
End Position.

(** The dict [check_weight_veto] returns. *)
Module Weight.
Record t : Type := mk {
  veto : bool;
  diff : Q;
  ideal_weight : Q;
  note : Py.text
}.

Definition eqb (a b : t) : bool :=
  Bool.eqb (veto a) (veto b) && Qeq_bool (diff a) (diff b)
  && Qeq_bool (ideal_weight a) (ideal_weight b) && Py.text_eqb (note a) (note b).
End Weight.

(** The dict [calc_training_score] returns. *)
Module Training.
Record t : Type := mk {
  training_score : Q;
  count : Z;
  strong_count : Z;
  detail : Py.text
}.

Definition eqb (a b : t) : bool :=
  Qeq_bool (training_score a) (training_score b) && Z.eqb (count a) (count b)
  && Z.eqb (strong_count a) (strong_count b) && Py.text_eqb (detail a) (detail b).
End Training.

(** The dict [calc_interference_bonus] returns. *)
Module Interference.
Record detail : Type := mk_detail {
  d_date : string;
  d_keywords : list string;
  d_g1f : Q;
  d_g1f_note : Py.text;
  d_score : Z
}.

Record t : Type := mk {
  interference_score : Z;
  interference_count : Z;
  dark_horse : bool;
  dark_horse_reason : Py.text;
  details : list detail
}.

Definition detail_eqb (a b : detail) : bool :=
  String.eqb (d_date a) (d_date b)
  && Py.list_eqb String.eqb (d_keywords a) (d_keywords b)
  && Qeq_bool (d_g1f a) (d_g1f b) && Py.text_eqb (d_g1f_note a) (d_g1f_note b)
  && Z.eqb (d_score a) (d_score b).

Definition eqb (a b : t) : bool :=
  Z.eqb (interference_score a) (interference_score b)
  && Z.eqb (interference_count a) (interference_count b)
  && Bool.eqb (dark_horse a) (dark_horse b)
  && Py.text_eqb (dark_horse_reason a) (dark_horse_reason b)
  && Py.list_eqb detail_eqb (details a) (details b).
End Interference.

(** The value of the key ["rank"]: a number, or the string ["VETO"]. *)
Inductive rank_t : Type :=
| RankN (i : Z)
| RankVeto.

Definition rank_eqb (r1 r2 : rank_t) : bool :=
  match r1, r2 with
  | RankN i, RankN j => Z.eqb i j
  | RankVeto, RankVeto => true
  | _, _ => false
  end.

(** A value read from a dict by [get], as far as its truth value goes. *)
Inductive value : Type :=
| VBool (b : bool)
| VInt (n : Z)
| VFloat (x : Q)
| VStr (s : string)
| VText (t : Py.text)
| VRank (r : rank_t)
| VDict.

(** [bool(v)]; the nested dicts of an analysis have keys, so they are true. *)
Definition value_truthy (v : value) : bool :=
  match v with
  | VBool b => b
  | VInt n => negb (Z.eqb n 0)
  | VFloat x => Py.truthy x
  | VStr s => negb (String.eqb s EmptyString)
  | VText t => match t with [] => false | _ :: _ => true end
  | VRank (RankN i) => negb (Z.eqb i 0)
  | VRank RankVeto => true
  | VDict => true
  end.

(** The dict [analyze_horse] returns.  [rank] is set by [rank_horses] and
    [hrNo] by the caller (app.py); both keys are absent before. *)
Module Analysis.
Record t : Type := mk {
  horse_name : string;
  total_score : Q;
  speed_score : Q;
  s1f_avg : Q;
  g1f_avg : Q;
  g1f_vector : string;
  position_score : Q;
  veto : bool;
  veto_reason : Py.text;
  training_score : Q;
  interference_score : Z;
  interference_count : Z;
  dark_horse : bool;
  dark_horse_reason : Py.text;
  speed : Speed.t;
  position : Position.t;
  weight : Weight.t;
  training : Training.t;
  interference : Interference.t;
  rank : option rank_t;
  hrNo : option string
}.

(** [a == b] on two such dicts: the same keys with equal values. *)
Definition eqb (a b : t) : bool :=
  String.eqb (horse_name a) (horse_name b)
  && Qeq_bool (total_score a) (total_score b)
  && Qeq_bool (speed_score a) (speed_score b)
  && Qeq_bool (s1f_avg a) (s1f_avg b)
  && Qeq_bool (g1f_avg a) (g1f_avg b)
  && String.eqb (g1f_vector a) (g1f_vector b)
  && Qeq_bool (position_score a) (position_score b)
  && Bool.eqb (veto a) (veto b)
  && Py.text_eqb (veto_reason a) (veto_reason b)
  && Qeq_bool (training_score a) (training_score b)
  && Z.eqb (interference_score a) (interference_score b)
  && Z.eqb (interference_count a) (interference_count b)
  && Bool.eqb (dark_horse a) (dark_horse b)
  && Py.text_eqb (dark_horse_reason a) (dark_horse_reason b)
  && Speed.eqb (speed a) (speed b)
  && Position.eqb (position a) (position b)
  && Weight.eqb (weight a) (weight b)
  && Training.eqb (training a) (training b)
  && Interference.eqb (interference a) (interference b)
  && Py.option_eqb rank_eqb (rank a) (rank b)
  && Py.option_eqb String.eqb (hrNo a) (hrNo b).

Local Open Scope string_scope.

(** [a.get(key)]: [None] for a key the dict does not have. *)
Definition get (key : string) (a : t) : option value :=
  let on k := String.eqb key k in
  if on "horse_name" then Some (VStr (horse_name a))
  else if on "total_score" then Some (VFloat (total_score a))
  else if on "speed_score" then Some (VFloat (speed_score a))
  else if on "s1f_avg" then Some (VFloat (s1f_avg a))
  else if on "g1f_avg" then Some (VFloat (g1f_avg a))
  else if on "g1f_vector" then Some (VStr (g1f_vector a))
  else if on "position_score" then Some (VFloat (position_score a))
  else if on "veto" then Some (VBool (veto a))
  else if on "veto_reason" then Some (VText (veto_reason a))
  else if on "training_score" then Some (VFloat (training_score a))
  else if on "interference_score" then Some (VInt (interference_score a))
  else if on "interference_count" then Some (VInt (interference_count a))
  else if on "dark_horse" then Some (VBool (dark_horse a))
  else if on "dark_horse_reason" then Some (VText (dark_horse_reason a))
  else if on "speed" then Some VDict
  else if on "position" then Some VDict
  else if on "weight" then Some VDict
  else if on "training" then Some VDict
  else if on "interference" then Some VDict
  else if on "rank" then option_map VRank (rank a)
  else if on "hrNo" then option_map VStr (hrNo a)
  else None.

(** [bool(a.get(key, False))]. *)
Definition get_flag (key : string) (a : t) : bool :=
  match get key a with
  | Some v => value_truthy v
  | None => false
  end.

(** [a["rank"] = r]. *)
Definition set_rank (r : rank_t) (a : t) : t :=
  mk (horse_name a) (total_score a) (speed_score a) (s1f_avg a) (g1f_avg a)
     (g1f_vector a) (position_score a) (veto a) (veto_reason a)
     (training_score a) (interference_score a) (interference_count a)
     (dark_horse a) (dark_horse_reason a) (speed a) (position a) (weight a)
     (training a) (interference a) (Some r) (hrNo a).
End Analysis.

(** A dict of the list [generate_trio_picks] is given, with the keys the
    method reads.  Any key may be absent ([None]); [hrNo] holds [str] of the
    value and [dark_horse] its truth value. *)
Module Horse.
Record t : Type := mk {
  horse_name : option string;
  hrNo : option string;
  rank : option rank_t;
  dark_horse : option bool;
  dark_horse_reason : option Py.text;
  g1f_vector : option string;
  g1f_avg : option Q;
  s1f_avg : option Q;
  total_score : option Q
}.

(** An analysis read as such a dict: every key but [rank] and [hrNo] is there. *)
Definition of_analysis (a : Analysis.t) : t :=
  mk (Some (Analysis.horse_name a)) (Analysis.hrNo a) (Analysis.rank a)
     (Some (Analysis.dark_horse a)) (Some (Analysis.dark_horse_reason a))
     (Some (Analysis.g1f_vector a)) (Some (Analysis.g1f_avg a))
     (Some (Analysis.s1f_avg a)) (Some (Analysis.total_score a)).
End Horse.

(** The dict [generate_trio_picks] returns. *)
Module Trio.
Record dark : Type := mk_dark {
  d_hrNo : string;
  d_horse_name : string;
  d_reasons : list Py.text;
  d_total_score : Q;
  d_g1f_avg : Q
}.

Record t : Type := mk {
  axis : list string;
  partners : list string;
  combinations : list string;
  num_bets : Z;
  dark_horses : list dark;
  summary : string
}.
End Trio.

(* ================================================================== *)
(** * quantitative_analysis.py: class QuantitativeAnalyzer *)
(* ================================================================== *)
Module Quant.

Local Open Scope string_scope.
Local Open Scope Q_scope.

(** The attributes [__init__] sets, from the keyword arguments or, for a
    missing one, from config. *)
Record analyzer : Type := mk_analyzer {
  position_weights : list (string * Q);
  w_bonus : Q;
  weight_threshold : Q;
  train_min : Z;
  train_strong_bonus : Q;
  train_base : Q;
  recent_n : Z
}.

(** [QuantitativeAnalyzer()]. *)
Definition default : analyzer :=
  mk_analyzer Config.POSITION_WEIGHTS Config.W_BONUS_ON_PLACEMENT
    Config.WEIGHT_VETO_THRESHOLD Config.TRAINING_MIN_COUNT
    Config.TRAINING_STRONG_BONUS Config.TRAINING_BASE_PER_SESSION
    Config.RECENT_RACES_COUNT.

(** [std < bound] for [std = sqrt var] and a positive [bound]. *)
Definition std_lt (var bound : Q) : bool := Py.Qltb var (bound * bound).

(** [re.sub(r"[^0-9.:]", "", rt)]. *)
Definition clean_rc_time (rt : string) : string :=
  Py.str_filter
    (fun c => Py.is_digit c || Ascii.eqb c "." || Ascii.eqb c ":")%bool rt.

(** What one race adds to [rc_times] in the fallback of [calc_speed_score]. *)
Definition rc_time_vals (r : Race.t) : list Q :=
  let rt_clean := clean_rc_time (Race.rcTime r) in
  if Py.str_in ":" rt_clean then
    match Py.split ":" rt_clean with
    | [m; s] =>
        match Py.float_of_string m, Py.float_of_string s with
        | Some x, Some y =>
            let val := x * 60 + y in if Py.Qltb 0 val then [val] else []
        | _, _ => []
        end
    | _ => []
    end
  else
    match Py.float_of_string rt_clean with
    | Some val => if Py.Qltb 0 val then [val] else []
    | None => []
    end.

(** The interference keywords with their weights, and the penalty keywords. *)
Definition interference_keywords : list (string * Z) :=
  [("꼬리", 3); ("진로", 3); ("불이익", 4); ("밀려", 3); ("부딪", 4);
   ("협착", 5); ("낙마", 5); ("주행방해", 4); ("능력 발휘", 3);
   ("급감속", 3); ("불리한", 3)]%Z.

Definition penalty_keywords : list string :=
  ["경고"; "벌칙"; "제재"; "과태료"; "기승정지"].

Section Methods.
Variable self : analyzer.

(** ** 1. calc_speed_score *)
Definition calc_speed_score (race_history : list Race.t) : Speed.t :=
  match race_history with
  | [] => Speed.mk 0 0 0 0 "N/A" 0
  | _ :: _ =>
    let recent := Py.slice_to (recent_n self) race_history in
    let s1f_vals := map Race.s1f (filter (fun r => Py.truthy (Race.s1f r)) recent) in
    let g1f_vals := map Race.g1f (filter (fun r => Py.truthy (Race.g1f r)) recent) in
    let s1f_avg := match s1f_vals with [] => 0 | _ :: _ => Py.mean s1f_vals end in
    let s1f_var := if (1 <? List.length s1f_vals)%nat then Py.variance s1f_vals else 0 in
    let g1f_avg := match g1f_vals with [] => 0 | _ :: _ => Py.mean g1f_vals end in
    let g1f_var := if (1 <? List.length g1f_vals)%nat then Py.variance g1f_vals else 0 in
    let g1f_vector :=
      if Py.Qltb 0 s1f_avg && Py.Qltb 0 g1f_avg then
        let ratio := g1f_avg / s1f_avg in
        if Qle_bool ratio 1.02 then "Strong"
        else if Qle_bool ratio 1.08 then "Maintaining"
        else "Fading"
      else "N/A" in
    let '(speed_score, g1f_vector) :=
      if Qeq_bool s1f_avg 0 && Qeq_bool g1f_avg 0 then
        let rc_times := flat_map rc_time_vals recent in
        match rc_times with
        | [] => (0, g1f_vector)
        | _ :: _ =>
            let avg_time := Py.mean rc_times in
            (Py.Qmax 0 ((80 - avg_time) / 20 * 100), "기록기반")
        end
      else
        let s1f_score :=
          if Py.Qltb 0 s1f_avg then Py.Qmax 0 ((14 - s1f_avg) / 14 * 50) else 0 in
        let g1f_score :=
          if Py.Qltb 0 g1f_avg then Py.Qmax 0 ((14 - g1f_avg) / 14 * 50) else 0 in
        let vector_bonus :=
          if String.eqb g1f_vector "Strong" then 15
          else if String.eqb g1f_vector "Maintaining" then 8
          else 0 in
        let s1f_stable :=
          if std_lt s1f_var 0.3 && negb (Nat.eqb (List.length s1f_vals) 0) then 5 else 0 in
        let g1f_stable :=
          if std_lt g1f_var 0.3 && negb (Nat.eqb (List.length g1f_vals) 0) then 5 else 0 in
        (0 + s1f_score + g1f_score + vector_bonus + s1f_stable + g1f_stable,
         g1f_vector) in
    Speed.mk (Py.round s1f_avg 3) (Py.round_sqrt s1f_var 3)
             (Py.round g1f_avg 3) (Py.round_sqrt g1f_var 3)
             g1f_vector
             (Py.round (Py.Qmin speed_score 100) 1)
  end.

(** ** 2. calc_position_score *)

(** The first key of the weight table found in [corner] gives the points. *)
Fixpoint corner_points (weights : list (string * Q)) (corner : string) : Q :=
  match weights with
  | [] => 0
  | (key, pts) :: rest =>
      if Py.str_in key corner then pts else corner_points rest corner
  end.

Definition calc_position_score (race_history : list Race.t) : Position.t :=
  match race_history with
  | [] => Position.mk 0 0 []
  | _ :: _ =>
    let recent := Py.slice_to (recent_n self) race_history in
    let '(total_score, w_bonus_count, details) :=
      fold_left
        (fun '(total_score, w_bonus_count, details) race =>
           let ord_val := Race.ord race in
           let pos := Py.upper (Race.pos race) in
           let corner := Py.upper (Race.corner race) in
           let placed := (ord_val <=? 3)%Z in
           let wide := placed && (Py.str_in "W" pos || Py.str_in "W" corner) in
           let race_score :=
             if placed then
               0 + corner_points (position_weights self) corner
               + match Py.dict_get pos (position_weights self) with
                 | Some pts => pts
                 | None => 0
                 end
               + (if wide then w_bonus self else 0)
             else 0 in
           (total_score + race_score,
            if wide then (w_bonus_count + 1)%Z else w_bonus_count,
            (details ++ [Position.mk_detail ord_val pos corner race_score])%list))
        recent (0, 0%Z, []) in
    Position.mk total_score w_bonus_count details
  end.

(** ** 3. check_weight_veto *)

(** The loop over the history: the first recorded weight above zero, or 0. *)
Fixpoint prev_weight_of (race_history : list Race.t) : Q :=
  match race_history with
  | [] => 0
  | race :: rest =>
      let w := match Race.weight race with Some x => x | None => 0 end in
      if Py.Qltb 0 w then w else prev_weight_of rest
  end.

Definition check_weight_veto (current_weight : Q) (race_history : list Race.t)
    (weight_diff : Q) : Weight.t :=
  if negb (Py.truthy current_weight) then
    Weight.mk false 0 0 [Py.Lit "데이터 없음"]
  else if negb (Qeq_bool weight_diff 0) then
    let diff := weight_diff in
    let is_veto := Qle_bool (weight_threshold self) (Qabs diff) in
    let note :=
      if is_veto then
        let direction := if Py.Qltb 0 diff then "증가" else "감소" in
        [Py.Lit "VETO: 체중 "; Py.FNum (Qabs diff); Py.Lit "kg "; Py.Lit direction;
         Py.Lit " (임계치 "; Py.FNum (weight_threshold self); Py.Lit "kg 초과)"]
      else
        [Py.Lit "체중 변동 "; Py.FSigned1 diff; Py.Lit "kg (정상 범위)"] in
    Weight.mk is_veto diff (current_weight - diff) note
  else
    let prev_weight := prev_weight_of race_history in
    if Qeq_bool prev_weight 0 then
      Weight.mk false 0 0 [Py.Lit "과거 체중 데이터 없음"]
    else
      let diff := current_weight - prev_weight in
      let is_veto := Qle_bool (weight_threshold self) (Qabs diff) in
      let note :=
        [Py.Lit "체중 변동 "; Py.FSigned1 diff; Py.Lit "kg (전주 ";
         Py.FNum prev_weight; Py.Lit "kg)"] in
      let note :=
        if is_veto then (Py.Lit "VETO: " :: note ++ [Py.Lit " - 급변동"])%list
        else note in
      Weight.mk is_veto diff prev_weight note.

(** ** calc_interference_bonus *)

(** [any(pk in report_text for pk in penalty_keywords)]. *)
Definition is_penalty (report_text : string) : bool :=
  existsb (fun pk => Py.str_in pk report_text) penalty_keywords.

(** The keywords found in the report, in table order, with their weights. *)
Definition matched (report_text : string) : list (string * Z) :=
  filter (fun kw => Py.str_in (fst kw) report_text) interference_keywords.

(** The loop over the history for the run of the report's date: its [g1f]. *)
Fixpoint g1f_at (rpt_date_clean : string) (race_history : list Race.t) : Q :=
  match race_history with
  | [] => 0
  | race :: rest =>
      if String.eqb (Race.rcDate race) rpt_date_clean then Race.g1f race
      else g1f_at rpt_date_clean rest
  end.

(** [report_date.replace("/", "").split("-")[0]]. *)
Definition clean_date (report_date : string) : string :=
  hd EmptyString (Py.split "-" (Py.remove_char "/" report_date)).

(** One turn of the loop over the reports, on the state
    [(details, total_score, interference_count)]. *)
Definition interference_step (race_history : list Race.t)
    (st : list Interference.detail * Z * Z) (rpt : Report.t)
  : list Interference.detail * Z * Z :=
  let '(details, total_score, interference_count) := st in
  let report_text := Report.report rpt in
  let report_date := Report.date rpt in
  let penalty := is_penalty report_text in
  let matched_keywords := map fst (matched report_text) in
  let keyword_score := fold_right Z.add 0%Z (map snd (matched report_text)) in
  match matched_keywords with
  | _ :: _ =>
    if negb penalty then
      let g1f_at_race := g1f_at (clean_date report_date) race_history in
      let '(g1f_bonus, g1f_note) :=
        if Py.Qltb 0 g1f_at_race then
          if Qle_bool g1f_at_race 12.5 then
            (8%Z, [Py.Lit "[끝걸음 매우 강함 G1F="; Py.FNum g1f_at_race; Py.Lit "]"])
          else if Qle_bool g1f_at_race 13.0 then
            (5%Z, [Py.Lit "[끝걸음 강함 G1F="; Py.FNum g1f_at_race; Py.Lit "]"])
          else if Qle_bool g1f_at_race 13.5 then
            (3%Z, [Py.Lit "[끝걸음 양호 G1F="; Py.FNum g1f_at_race; Py.Lit "]"])
          else (0%Z, [])
        else (0%Z, []) in
      let race_score := Z.min (keyword_score + g1f_bonus) 15 in
      ((details ++ [Interference.mk_detail report_date matched_keywords
                      g1f_at_race g1f_note race_score])%list,
       (total_score + race_score)%Z,
       (interference_count + 1)%Z)
    else st
  | [] => st
  end.

(** The part of [calc_interference_bonus] after the loop: the cap of the
    total and the dark-horse verdict. *)
Definition interference_verdict (st : list Interference.detail * Z * Z)
  : Interference.t :=
  let '(details, total_score, interference_count) := st in
  let final_score := Z.min total_score 25 in
  let strong_g1f_interferences :=
    filter (fun d => Py.Qltb 0 (Interference.d_g1f d)
                     && Qle_bool (Interference.d_g1f d) 13.0) details in
  let '(is_dark_horse, dark_horse_reason) :=
    if (1 <=? List.length strong_g1f_interferences)%nat then
      (true, [Py.Lit "방해 "; Py.FInt interference_count;
              Py.Lit "회 + 끝걸음 살아있음 (G1F≤13.0)"])
    else if (2 <=? interference_count)%Z then
      (true, [Py.Lit "방해 "; Py.FInt interference_count;
              Py.Lit "회 — 실력 이상으로 순위 하락 가능성"])
    else (false, []) in
  Interference.mk final_score interference_count is_dark_horse
    dark_horse_reason details.

Definition calc_interference_bonus (steward_reports : list Report.t)
    (race_history : list Race.t) : Interference.t :=
  match steward_reports with
  | [] => Interference.mk 0 0 false [] []
  | _ :: _ =>
      interference_verdict
        (fold_left (interference_step race_history) steward_reports ([], 0%Z, 0%Z))
  end.

(** ** 4. calc_training_score *)
Definition calc_training_score (training_records : list TrainingRecord.t)
  : Training.t :=
  match training_records with
  | [] => Training.mk 0 0 0 [Py.Lit "조교 데이터 없음"]
  | _ :: _ =>
    let count := Z.of_nat (List.length training_records) in
    let strong_count :=
      Z.of_nat (List.length
        (filter (fun r => Py.str_in "강" (TrainingRecord.type r)
                          || Py.str_in "강" (TrainingRecord.trGbn r))
                training_records)) in
    let score := inject_Z count * train_base self in
    let '(score, detail) :=
      if (train_min self <=? count)%Z && (0 <? strong_count)%Z then
        (score + train_strong_bonus self,
         [Py.Lit "✅ 충분한 조교 ("; Py.FInt count; Py.Lit "회, 강조교 ";
          Py.FInt strong_count; Py.Lit "회) → +"; Py.FNum (train_strong_bonus self);
          Py.Lit "점 가산"])
      else if (train_min self <=? count)%Z then
        (score + 15,
         [Py.Lit "⚠ 조교 횟수 충분("; Py.FInt count; Py.Lit "회)이나 강조교 없음"])
      else if (0 <? strong_count)%Z then
        (score + 10,
         [Py.Lit "⚠ 강조교 포함("; Py.FInt strong_count; Py.Lit "회)이나 횟수 부족(";
          Py.FInt count; Py.Lit "회)"])
      else
        (score,
         [Py.Lit "⚠ 조교 부족 ("; Py.FInt count; Py.Lit "회, 강조교 없음)"]) in
    Training.mk (Py.Qmin score 100) count strong_count detail
  end.

(** ** analyze_horse *)
Definition analyze_horse (horse_name : string) (race_history : list Race.t)
    (training_records : list TrainingRecord.t) (current_weight : Q)
    (weight_diff : Q) (steward_reports : option (list Report.t)) : Analysis.t :=
  let speed := calc_speed_score race_history in
  let position := calc_position_score race_history in
  let weight := check_weight_veto current_weight race_history weight_diff in
  let training := calc_training_score training_records in
  let interference :=
    calc_interference_bonus
      (match steward_reports with Some l => l | None => [] end) race_history in
  let total :=
    Speed.speed_score speed * 0.30
    + Position.position_score position * 0.30
    + Training.training_score training * 0.25
    + (if negb (Weight.veto weight) then 15 else -10) * 1.0
    + inject_Z (Interference.interference_score interference) * 0.15 in
  Analysis.mk
    horse_name
    (Py.round total 1)
    (Speed.speed_score speed)
    (Speed.s1f_avg speed)
    (Speed.g1f_avg speed)
    (Speed.g1f_vector speed)
    (Position.position_score position)
    (Weight.veto weight)
    (if Weight.veto weight then Weight.note weight else [])
    (Training.training_score training)
    (Interference.interference_score interference)
    (Interference.interference_count interference)
    (Interference.dark_horse interference)
    (Interference.dark_horse_reason interference)
    speed position weight training interference
    None None.

End Methods.

(** ** rank_horses *)

(** [valid.sort(key=lambda x: x["total_score"], reverse=True)]: the sort is
    stable, also in reverse, so of two equal scores the one met first stays
    first.  [x] comes before the elements of [l] in the list being sorted. *)
Fixpoint insert_desc (x : Analysis.t) (l : list Analysis.t) : list Analysis.t :=
  match l with
  | [] => [x]
  | y :: l' =>
      if Qle_bool (Analysis.total_score y) (Analysis.total_score x)
      then x :: y :: l'
      else y :: insert_desc x l'
  end.

Definition sort_desc (l : list Analysis.t) : list Analysis.t :=
  fold_right insert_desc [] l.

(** [for i, h in enumerate(valid, i): h["rank"] = i]. *)
Fixpoint enumerate_rank (i : Z) (valid : list Analysis.t) : list Analysis.t :=
  match valid with
  | [] => []
  | h :: rest => Analysis.set_rank (RankN i) h :: enumerate_rank (i + 1) rest
  end.

(** The dicts of [analyses] are taken to be distinct objects, as
    [analyze_horse] builds them: setting the rank of one leaves the others. *)
Definition rank_horses (analyses : list Analysis.t) : list Analysis.t :=
  let valid := filter (fun a => negb (Analysis.get_flag "veto" a)) analyses in
  let vetoed := filter (fun a => Analysis.get_flag "veto" a) analyses in
  let valid := sort_desc valid in
  (enumerate_rank 1 valid ++ map (Analysis.set_rank RankVeto) vetoed)%list.

(** ** generate_trio_picks *)

(** [int(x) if x.isdigit() else 99]. *)
Definition hr_no_key (x : string) : Z :=
  if Py.isdigit x then Py.int_of_digits x else 99%Z.

(** The rows [(hrName, hrNo)] of [entries_df], both read through [str], put
    into [hr_no_map]; [None] is no data frame. *)
Definition build_hr_no_map (entries_df : option (list (string * string)))
  : list (string * string) :=
  match entries_df with
  | Some rows => fold_left (fun m row => Py.dict_set (fst row) (snd row) m) rows []
  | None => []
  end.

Definition str_of_rank (r : rank_t) : string :=
  match r with
  | RankN i => Py.str_of_Z i
  | RankVeto => "VETO"
  end.

Definition get_hr_no (hr_no_map : list (string * string)) (horse : Horse.t) : string :=
  let name := match Horse.horse_name horse with Some n => n | None => "" end in
  let no := match Py.dict_get name hr_no_map with Some n => n | None => "" end in
  if String.eqb no "" then
    match Horse.hrNo horse with
    | Some n => n
    | None => match Horse.rank horse with
              | Some r => str_of_rank r
              | None => "?"
              end
    end
  else no.

(** [h.get("rank", 99) > 3]; a string does not compare with a number. *)
Definition rank_above_3 (h : Horse.t) : Py.result bool :=
  match Horse.rank h with
  | None => Py.Ok true
  | Some (RankN i) => Py.Ok (3 <? i)%Z
  | Some RankVeto => Py.Raise Py.TypeError
  end.

(** One turn of the loop [for h in valid], on the state
    [(dark_horses, partners_set)]. *)
Definition dark_step (hr_no_map : list (string * string))
    (axis challengers : list string) (h : Horse.t)
    (st : list Trio.dark * list string)
  : Py.result (list Trio.dark * list string) :=
  let '(dark_horses, partners_set) := st in
  let reasons : list Py.text := [] in
  let hr_no := get_hr_no hr_no_map h in
  Py.bind
    (match Horse.dark_horse h with
     | Some true =>
         Py.bind (Py.subscript "dark_horse_reason" (Horse.dark_horse_reason h))
           (fun r => Py.Ok ((reasons ++ [r])%list, true))
     | _ => Py.Ok (reasons, false)
     end)
    (fun '(reasons, is_dark) =>
  Py.bind
    (if Py.option_eqb String.eqb (Horse.g1f_vector h) (Some "Strong") then
       Py.bind (rank_above_3 h) (fun above =>
         if above
            && Qle_bool (match Horse.g1f_avg h with Some g => g | None => 99 end) 13.3
         then
           Py.bind (Py.subscript "g1f_avg" (Horse.g1f_avg h)) (fun g =>
             Py.Ok ((reasons ++ [[Py.Lit "끝걸음 Strong (G1F="; Py.FNum g;
                                  Py.Lit "s) 순위 대비 저평가"]])%list, true))
         else Py.Ok (reasons, is_dark))
     else Py.Ok (reasons, is_dark))
    (fun '(reasons, is_dark) =>
  Py.bind
    (if Py.Qltb 14.0 (match Horse.s1f_avg h with Some x => x | None => 0 end)
        && Qle_bool (match Horse.g1f_avg h with Some g => g | None => 0 end) 13.0
     then
       Py.bind (Py.subscript "s1f_avg" (Horse.s1f_avg h)) (fun x =>
       Py.bind (Py.subscript "g1f_avg" (Horse.g1f_avg h)) (fun g =>
         Py.Ok ((reasons ++ [[Py.Lit "추입형 (S1F="; Py.FNum x; Py.Lit "->G1F=";
                              Py.FNum g; Py.Lit ")"]])%list, true)))
     else Py.Ok (reasons, is_dark))
    (fun '(reasons, is_dark) =>
  if is_dark then
    Py.bind (Py.subscript "horse_name" (Horse.horse_name h)) (fun name =>
    Py.bind (Py.subscript "total_score" (Horse.total_score h)) (fun total =>
      let entry :=
        Trio.mk_dark hr_no name reasons total
          (match Horse.g1f_avg h with Some g => g | None => 0 end) in
      Py.Ok ((dark_horses ++ [entry])%list,
             if negb (Py.list_in String.eqb hr_no axis)
                && negb (Py.list_in String.eqb hr_no challengers)
             then Py.set_add hr_no partners_set
             else partners_set)))
  else Py.Ok (dark_horses, partners_set)))).

(** ["-".join(sorted([a, b, c], key=...))]. *)
Definition combo (a b c : string) : string :=
  Py.join "-" (Py.sorted_by hr_no_key [a; b; c]).

(** The set of strings is a list without repeats in insertion order; Python
    leaves the iteration order of a set open, which shows only among
    partners of the same sort key. *)
Definition generate_trio_picks (ranked : list Horse.t)
    (entries_df : option (list (string * string))) : Py.result Trio.t :=
  let valid :=
    filter (fun h => negb (Py.option_eqb rank_eqb (Horse.rank h) (Some RankVeto)))
           ranked in
  match valid with
  | axis_horse :: chal1 :: chal2 :: others =>
    let hr_no_map := build_hr_no_map entries_df in
    let axis0 := get_hr_no hr_no_map axis_horse in
    let axis := [axis0] in
    let challengers := [get_hr_no hr_no_map chal1; get_hr_no hr_no_map chal2] in
    let partners_set :=
      fold_left (fun s h => Py.set_add (get_hr_no hr_no_map h) s)
                (firstn 3 others) [] in
    Py.bind
      (Py.for_each (dark_step hr_no_map axis challengers) valid ([], partners_set))
      (fun '(dark_horses, partners_set) =>
    let partners := Py.sorted_by hr_no_key partners_set in
    let combos :=
      fold_left
        (fun combos chal =>
           fold_left (fun combos part => Py.set_add (combo axis0 chal part) combos)
                     partners combos)
        challengers [] in
    let combos :=
      if (2 <=? List.length challengers)%nat then
        Py.set_add (combo axis0 (nth 0 challengers "") (nth 1 challengers "")) combos
      else combos in
    let final_combos := Py.sorted_str combos in
    let summary :=
      ("축 [" ++ axis0 ++ "] / 도전 [" ++ Py.join "," challengers
       ++ "] / 복병 [" ++ Py.join "," partners ++ "]")%string in
    Py.Ok (Trio.mk axis (challengers ++ partners)%list final_combos
             (Z.of_nat (List.length final_combos)) dark_horses summary))
  | _ => Py.Ok (Trio.mk [] [] [] 0 [] "출전마 부족")
  end.

End Quant.

(* ================================================================== *)
(** * backtester.py: one race of Backtester.run *)
(* ================================================================== *)
Module Backtest.

Local Open Scope string_scope.
Local Open Scope Q_scope.

(** A value of the dict [_get_actual_ranks] builds. *)
Record actual : Type := mk_actual {
  rank : Z;
  winOdds : Q;
  plcOdds : Q;
  qui_div : Q;
  trio_div : Q
}.

(** A row of [race_res], the results of one race: each field as its
    conversion ([int], [str], [float]) gives it, [None] when that raises. *)
Record result_row : Type := mk_row {
  row_ord : option Z;
  row_name : string;
  row_winOdds : option Q;
  row_plcOdds : option Q;
  row_qui_div : option Q;
  row_trio_div : option Q
}.

(** The loop of [_get_actual_ranks] over the rows of the race: a row whose
    conversion raises is skipped, a later row of the same name replaces the
    earlier value. *)
Definition _get_actual_ranks (race_res : list result_row) : list (string * actual) :=
  fold_left
    (fun ranks row =>
       match row_ord row, row_winOdds row, row_plcOdds row,
             row_qui_div row, row_trio_div row with
       | Some rank, Some win_odds, Some plc_odds, Some qui_div, Some trio_div =>
           Py.dict_set (row_name row)
             (mk_actual rank win_odds plc_odds qui_div trio_div) ranks
       | _, _, _, _, _ => ranks
       end)
    race_res [].

(** What the loop over the rows of [group_df] has for one horse: the
    arguments of [analyze_horse], and [ai_reason], the answer of the
    language-model collaborator when it contains "true". *)
Record horse_input : Type := mk_input {
  in_horse_name : string;
  in_history : list Race.t;
  in_train_recs : list TrainingRecord.t;
  in_weight : Q;
  in_weight_diff : Q;
  in_st_reports : list Report.t;
  in_ai_reason : option string
}.

(** The body of the loop over the horses: the analysis, with the
    collaborator's verdict merged in.  The collaborator is asked only when
    there is a report. *)
Definition analyze_entry (analyzer : Quant.analyzer) (x : horse_input) : Analysis.t :=
  let analysis :=
    Quant.analyze_horse analyzer (in_horse_name x) (in_history x)
      (in_train_recs x) (in_weight x) (in_weight_diff x)
      (Some (in_st_reports x)) in
  let ai_bad_luck :=
    match in_st_reports x with
    | [] => None
    | _ :: _ => in_ai_reason x
    end in
  match ai_bad_luck with
  | Some ai_reason =>
      Analysis.mk
        (Analysis.horse_name analysis) (Analysis.total_score analysis)
        (Analysis.speed_score analysis) (Analysis.s1f_avg analysis)
        (Analysis.g1f_avg analysis) (Analysis.g1f_vector analysis)
        (Analysis.position_score analysis) (Analysis.veto analysis)
        (Analysis.veto_reason analysis) (Analysis.training_score analysis)
        (Analysis.interference_score analysis + 20)%Z
        (Analysis.interference_count analysis)
        true
        (Analysis.dark_horse_reason analysis ++ [Py.Lit " | "; Py.Lit ai_reason])%list
        (Analysis.speed analysis) (Analysis.position analysis)
        (Analysis.weight analysis) (Analysis.training analysis)
        (Analysis.interference analysis)
        (Analysis.rank analysis) (Analysis.hrNo analysis)
  | None => analysis
  end.

(** The six horses of the strategy. *)
Record selection : Type := mk_selection {
  axis_horse : Analysis.t;
  challengers : list Analysis.t;
  dark_horses : list Analysis.t
}.

Definition selected_horses (s : selection) : list Analysis.t :=
  (axis_horse s :: challengers s ++ dark_horses s)%list.

(** [h not in l] compares dicts by [==]. *)
Definition not_in (h : Analysis.t) (l : list Analysis.t) : bool :=
  negb (Py.list_in Analysis.eqb h l).

(** The selection of axis, challengers and dark horses from the ranking;
    [ranked[0]] raises on an empty ranking. *)
Definition select_horses (ranked : list Analysis.t) : Py.result selection :=
  match ranked with
  | [] => Py.Raise Py.IndexError
  | axis_horse :: others =>
    let dark_candidates := filter (Analysis.get_flag "is_dark_horse") others in
    let dark_horses := firstn 3 dark_candidates in
    let remaining := filter (fun h => not_in h dark_horses) others in
    let challengers := firstn 2 remaining in
    let dark_horses :=
      if (List.length dark_horses <? 3)%nat then
        let needed := (3 - List.length dark_horses)%nat in
        let extras := filter (fun h => not_in h challengers) remaining in
        (dark_horses ++ firstn needed extras)%list
      else dark_horses in
    Py.Ok (mk_selection axis_horse challengers dark_horses)
  end.

(** [next((n for n, d in actual_ranks.items() if d["rank"] == r), None)]. *)
Definition name_of_rank (r : Z) (actual_ranks : list (string * actual))
  : option string :=
  option_map fst (Py.next (fun nd => Z.eqb (rank (snd nd)) r) actual_ranks).

(** [n in names] for a name that may be [None]: the names are strings. *)
Definition in_picks (n : option string) (names : list string) : bool :=
  match n with
  | Some s => Py.list_in String.eqb s names
  | None => false
  end.

Definition name_eqb : option string -> option string -> bool :=
  Py.option_eqb String.eqb.

(** One row of [results]. *)
Record outcome : Type := mk_outcome {
  horse : string;
  pred_score : Q;
  actual_rank : Z;
  is_hit : bool;
  is_win_hit : bool;
  win_return : Q;
  is_qui_hit : bool;
  qui_return : Q;
  is_trio_hit : bool;
  trio_return : Q;
  is_veto : bool
}.

(** The metrics of one race, from the selection and the actual ranks. *)
Definition race_metrics (sel : selection) (actual_ranks : list (string * actual))
  : outcome :=
  let axis_horse := axis_horse sel in
  let selected_horses := selected_horses sel in
  let horse_name := Analysis.horse_name axis_horse in
  let actual_data :=
    match Py.dict_get horse_name actual_ranks with
    | Some d => d
    | None => mk_actual 99 0 0 0 0
    end in
  let actual_rank := rank actual_data in
  let is_win_hit := Z.eqb actual_rank 1 in
  let win_return := if is_win_hit then winOdds actual_data else 0 in
  let is_plc_hit := (actual_rank <=? 3)%Z in
  let r1_name := name_of_rank 1 actual_ranks in
  let r2_name := name_of_rank 2 actual_ranks in
  let my_picks := map Analysis.horse_name selected_horses in
  let '(is_qui_hit, qui_return) :=
    if Py.list_in name_eqb (Some horse_name) [r1_name; r2_name] then
      let partner := if name_eqb (Some horse_name) r1_name then r2_name else r1_name in
      if in_picks partner my_picks then (true, qui_div actual_data) else (false, 0)
    else (false, 0) in
  let r3_name := name_of_rank 3 actual_ranks in
  let rank_names := [r1_name; r2_name; r3_name] in
  let '(is_trio_hit, trio_return) :=
    if Py.list_in name_eqb (Some horse_name) rank_names then
      let needed_partners :=
        filter (fun n => negb (name_eqb n (Some horse_name))) rank_names in
      let partners_in_picks := filter (fun n => in_picks n my_picks) needed_partners in
      if (List.length partners_in_picks =? 2)%nat
      then (true, trio_div actual_data) else (false, 0)
    else (false, 0) in
  mk_outcome horse_name (Analysis.total_score axis_horse) actual_rank
    is_plc_hit is_win_hit win_return is_qui_hit qui_return
    is_trio_hit trio_return (Analysis.veto axis_horse).


End Backtest.

(* ================================================================== *)
(** * backtester.py: the loop of Backtester.run and tune_parameters *)
(* ================================================================== *)
Module Run.

Local Open Scope string_scope.
Local Open Scope Q_scope.

(** One race the loop of [run] reaches: its date, its number, the rows of
    [group_df] and the rows of the results for that race number.  Loading
    the data of a date (cache, collector) is outside the model. *)
Record race : Type := mk_race {
  r_date : string;
  r_race_no : Z;
  r_group : list Backtest.horse_input;
  r_race_res : list Backtest.result_row
}.

(** The state of the loop: the rows of [results], with their date and race
    number, and the counters [veto_stats] and [w_bonus_stats]. *)
Record state : Type := mk_state {
  results : list (string * Z * Backtest.outcome);
  veto_total : Z;
  veto_failed : Z;
  w_bonus_total : Z;
  w_bonus_hit : Z
}.

Definition initial : state := mk_state [] 0 0 0 0.

(** [for horse in sim_results: if horse["veto"]: ...], on the counters
    [(total, failed)]. *)
Definition veto_step (actual_ranks : list (string * Backtest.actual))
    (st : Z * Z) (horse : Analysis.t) : Z * Z :=
  let '(total, failed) := st in
  if Analysis.veto horse then
    let act_rank :=
      match Py.dict_get (Analysis.horse_name horse) actual_ranks with
      | Some act_data => Backtest.rank act_data
      | None => 99%Z
      end in
    ((total + 1)%Z, if (3 <? act_rank)%Z then (failed + 1)%Z else failed)
  else st.

(** The body of the loop over the races.  A race without actual ranks is
    passed over; [ranked[0]] raises on a race without horses. *)
Definition race_step (analyzer : Quant.analyzer) (rc : race) (st : state)
  : Py.result state :=
  let actual_ranks := Backtest._get_actual_ranks (r_race_res rc) in
  match actual_ranks with
  | [] => Py.Ok st
  | _ :: _ =>
    let sim_results := map (Backtest.analyze_entry analyzer) (r_group rc) in
    let ranked := Quant.rank_horses sim_results in
    Py.bind (Backtest.select_horses ranked) (fun sel =>
      let o := Backtest.race_metrics sel actual_ranks in
      let axis_horse := Backtest.axis_horse sel in
      let w_counted :=
        (0 <? Position.w_bonus_count (Analysis.position axis_horse))%Z in
      let '(total, failed) :=
        fold_left (veto_step actual_ranks) sim_results
                  (veto_total st, veto_failed st) in
      Py.Ok (mk_state
               (results st ++ [(r_date rc, r_race_no rc, o)])%list
               total failed
               (if w_counted then (w_bonus_total st + 1)%Z else w_bonus_total st)
               (if w_counted && Backtest.is_hit o
                then (w_bonus_hit st + 1)%Z else w_bonus_hit st)))
  end.

(** The dict [run] returns. *)
Record metrics : Type := mk_metrics {
  hit_rate : Q;
  veto_accuracy : Q;
  w_bonus_accuracy : Q;
  total_races : Z
}.

(** [column.mean() * 100] for a column of truth values. *)
Definition accuracy (flag : Backtest.outcome -> bool)
    (rows : list (string * Z * Backtest.outcome)) : Q :=
  inject_Z (Z.of_nat (List.length (filter (fun row => flag (snd row)) rows)))
  / inject_Z (Z.of_nat (List.length rows)) * 100.

(** [column.sum() / (total_races * cost) * 100], the return on a stake of
    [cost] units a race: 1 for the win bet, 5 for the quinella, 10 for the
    trio. *)
Definition roi (ret : Backtest.outcome -> Q) (cost : Z)
    (rows : list (string * Z * Backtest.outcome)) : Q :=
  let total_cost := (Z.of_nat (List.length rows) * cost)%Z in
  if (0 <? total_cost)%Z
  then Py.Qsum (map (fun row => ret (snd row)) rows) / inject_Z total_cost * 100
  else 0.

(** [a / b * 100 if b > 0 else 0] on two counters. *)
Definition rate (part whole : Z) : Q :=
  if (0 <? whole)%Z then inject_Z part / inject_Z whole * 100 else 0.

(** The report after the loop: [None] is the empty dict returned when no
    race was simulated. *)
Definition final_report (st : state) : option metrics :=
  match results st with
  | [] => None
  | _ :: _ =>
    let plc_acc := accuracy Backtest.is_hit (results st) in
    let veto_acc := rate (veto_failed st) (veto_total st) in
    let w_bonus_acc := rate (w_bonus_hit st) (w_bonus_total st) in
    Some (mk_metrics plc_acc veto_acc w_bonus_acc
            (Z.of_nat (List.length (results st))))
  end.

(** [run], from the races its loop reaches. *)
Definition run (analyzer : Quant.analyzer) (races : list race)
  : Py.result (option metrics) :=
  Py.bind (Py.for_each (race_step analyzer) races initial)
          (fun st => Py.Ok (final_report st)).

(** ** tune_parameters *)

(** [{**base, **over}]. *)
Definition merge (base over : list (string * Q)) : list (string * Q) :=
  fold_left (fun d kv => Py.dict_set (fst kv) (snd kv) d) over base.

Definition w_bonuses : list Q := [20; 30; 40].

Definition pos_weights_opts : list (list (string * Q)) :=
  [[("4M", 50); ("3M", 40); ("2M", 30)];
   [("4M", 60); ("3M", 40); ("2M", 20)]].

(** The analyzer built from the params of the grid, passed as keyword
    arguments: the other attributes come from config. *)
Definition with_params (w : Q) (pos_w : list (string * Q)) : Quant.analyzer :=
  Quant.mk_analyzer (merge Config.POSITION_WEIGHTS pos_w) w
    (Quant.weight_threshold Quant.default) (Quant.train_min Quant.default)
    (Quant.train_strong_bonus Quant.default) (Quant.train_base Quant.default)
    (Quant.recent_n Quant.default).

(** [itertools.product(w_bonuses, pos_weights_opts)]. *)
Definition grid : list Quant.analyzer :=
  flat_map (fun w => map (with_params w) pos_weights_opts) w_bonuses.

(** One turn of the search, on [(best_score, best_params)]; [objective] is
    [self.run] on the tuning window, and [None] for the params is the empty
    dict. *)
Definition tune_step (objective : Quant.analyzer -> Py.result (option metrics))
    (params : Quant.analyzer) (best : Q * option Quant.analyzer)
  : Py.result (Q * option Quant.analyzer) :=
  Py.bind (objective params) (fun res =>
    let score := match res with Some m => hit_rate m | None => 0 end in
    if Py.Qltb (fst best) score then Py.Ok (score, Some params) else Py.Ok best).

(** The search over a list of candidates. *)
Definition search (objective : Quant.analyzer -> Py.result (option metrics))
    (candidates : list Quant.analyzer) : Py.result (Q * option Quant.analyzer) :=
  Py.for_each (tune_step objective) candidates (0, None).

(** [tune_parameters]: what it prints as best score and best params. *)
Definition tune_parameters
    (objective : Quant.analyzer -> Py.result (option metrics))
  : Py.result (Q * option Quant.analyzer) :=
  search objective grid.

End Run.

(* ================================================================== *)
(** * Sample data: the test block of quantitative_analysis.py *)
(* ================================================================== *)
Module Sample.

Local Open Scope string_scope.
Local Open Scope Q_scope.

Definition race (s1f g1f : Q) (ord : Z) (pos corner : string) (weight : Q) : Race.t :=
  Race.mk "" s1f g1f ord pos corner (Some weight) "0".

Definition sample_history : list Race.t :=
  [race 12.1 12.3 1 "F" "4M" 468;
   race 12.3 12.5 2 "M" "3M" 470;
   race 12.0 12.8 5 "W" "2M" 466;
   race 12.4 12.2 1 "F" "4M" 469;
   race 12.2 12.6 3 "C" "3M" 471].

Definition sample_training : list TrainingRecord.t :=
  List.concat (repeat [TrainingRecord.mk "보" ""; TrainingRecord.mk "강" "";
                  TrainingRecord.mk "보" ""] 5).

Definition result : Analysis.t :=
  Quant.analyze_horse Quant.default "테스트호스" sample_history sample_training
    470 0 None.

(** A field of seven horses for the ranking and the combinations: name,
    number, total score, sectional means and dark-horse flag. *)
Definition runner (name hrNo : string) (total s1f_avg g1f_avg : Q) (veto dark : bool)
  : Analysis.t :=
  Analysis.mk name total 0 s1f_avg g1f_avg "Maintaining" 0 veto [] 0 0 0 dark
    (if dark then [Py.Lit "방해 "; Py.FInt 2;
                   Py.Lit "회 — 실력 이상으로 순위 하락 가능성"] else [])
    (Speed.mk s1f_avg 0 g1f_avg 0 "Maintaining" 0)
    (Position.mk 0 0 [])
    (Weight.mk veto 0 0 [])
    (Training.mk 0 0 0 [])
    (Interference.mk 0 0 dark [] [])
    None (Some hrNo).

Definition field : list Analysis.t :=
  [runner "가" "1" 48.5 13.4 13.1 false false;
   runner "나" "2" 61.0 13.2 12.9 false false;
   runner "다" "3" 30.0 13.5 13.6 true false;
   runner "라" "4" 61.0 13.3 13.0 false false;
   runner "마" "5" 40.2 14.2 12.8 false false;
   runner "바" "6" 35.0 13.6 13.3 false false;
   runner "사" "7" 33.1 13.7 13.4 false false;
   runner "아" "8" 20.0 13.9 13.8 false true].

End Sample.

(* ================================================================== *)
(** * The vocabulary of the properties *)
(* ================================================================== *)
Module Spec.

Local Open Scope string_scope.
Local Open Scope Q_scope.



(** The dicts of a ranking whose rank is not the string "VETO". *)
Definition non_vetoed (ranked : list Horse.t) : list Horse.t :=
  filter (fun h => match Horse.rank h with
                   | Some RankVeto => false
                   | _ => true
                   end) ranked.


(** The result [generate_trio_picks] gives for too small a field. *)
Definition insufficient : Trio.t := Trio.mk [] [] [] 0 [] "출전마 부족".




(** The bonus of the endurance vector. *)
Definition vector_bonus (vector : string) : Q :=
  if String.eqb vector "Strong" then 15
  else if String.eqb vector "Maintaining" then 8
  else 0.





(** In a list sorted by descending score, [a] may stand before [b]. *)
Definition score_ge (a b : Analysis.t) : Prop :=
  Analysis.total_score b <= Analysis.total_score a.


(** The report text contains one of the penalty keywords. *)
Definition has_penalty_keyword (report_text : string) : Prop :=
  exists pk, In pk Quant.penalty_keywords /\ Py.str_in pk report_text = true.

End Spec.

(* ================================================================== *)
(** * More vocabulary *)
(* ================================================================== *)
Module Props.

Local Open Scope string_scope.
Local Open Scope Q_scope.

(** The window of the most recent races the scorers look at. *)
Definition recent (self : Quant.analyzer) (race_history : list Race.t)
  : list Race.t :=
  Py.slice_to (Quant.recent_n self) race_history.

(** The body of the loop of [calc_position_score], on the state
    [(total_score, w_bonus_count, details)]. *)
Definition position_step (self : Quant.analyzer)
    (st : Q * Z * list Position.detail) (race : Race.t)
  : Q * Z * list Position.detail :=
  let '(total_score, w_bonus_count, details) := st in
  let ord_val := Race.ord race in
  let pos := Py.upper (Race.pos race) in
  let corner := Py.upper (Race.corner race) in
  let placed := (ord_val <=? 3)%Z in
  let wide := placed && (Py.str_in "W" pos || Py.str_in "W" corner) in
  let race_score :=
    if placed then
      0 + Quant.corner_points (Quant.position_weights self) corner
      + match Py.dict_get pos (Quant.position_weights self) with
        | Some pts => pts
        | None => 0
        end
      + (if wide then Quant.w_bonus self else 0)
    else 0 in
  (total_score + race_score,
   if wide then (w_bonus_count + 1)%Z else w_bonus_count,
   (details ++ [Position.mk_detail ord_val pos corner race_score])%list).

(** The detail of a run that was placed (finished in the first three). *)
Definition placed (d : Position.detail) : bool := (Position.d_ord d <=? 3)%Z.

(** A steward report counts for the interference score: it has an
    interference keyword and no penalty keyword. *)
Definition qualifies (rpt : Report.t) : bool :=
  match Quant.matched (Report.report rpt) with
  | [] => false
  | _ :: _ => negb (Quant.is_penalty (Report.report rpt))
  end.

(** The late sectional of a detail is a fast one: above 0, at most 13.0. *)
Definition fast_finish (d : Interference.detail) : bool :=
  Py.Qltb 0 (Interference.d_g1f d) && Qle_bool (Interference.d_g1f d) 13.0.

(** The text begins with the literal ["VETO: "]. *)
Definition veto_note (note : Py.text) : Prop :=
  exists s rest, note = Py.Lit s :: rest /\ prefix "VETO: " s = true.

(** Two analyses are the same dict but for the key [rank]. *)
Definition same_but_rank (a b : Analysis.t) : Prop :=
  Analysis.set_rank RankVeto a = Analysis.set_rank RankVeto b.

(** Read as the dicts [generate_trio_picks] is given. *)
Definition as_horses (ranked : list Analysis.t) : list Horse.t :=
  map Horse.of_analysis ranked.

(** The analyses that are not vetoed. *)
Definition not_vetoed (analyses : list Analysis.t) : list Analysis.t :=
  filter (fun a => negb (Analysis.veto a)) analyses.

(** Strings in ascending order of their bytes. *)
Definition str_le (x y : string) : Prop := String.leb x y = true.

(** The number of placed runs of a breakdown. *)
Definition placed_count (ds : list Position.detail) : Z :=
  Z.of_nat (List.length (filter placed ds)).

(** The sum of the per-report scores of a breakdown. *)
Definition detail_sum (ds : list Interference.detail) : Z :=
  fold_right Z.add 0%Z (map Interference.d_score ds).

(** The score a run of the tuner's objective reports: its hit rate, 0 for
    the empty dict. *)
Definition score_of (res : option Run.metrics) : Q :=
  match res with
  | Some m => Run.hit_rate m
  | None => 0
  end.

(** What a row of the results adds to the dict of actual ranks: its name
    and its value, or nothing when one of the conversions raises. *)
Definition row_entry (row : Backtest.result_row)
  : option (string * Backtest.actual) :=
  match Backtest.row_ord row, Backtest.row_winOdds row,
        Backtest.row_plcOdds row, Backtest.row_qui_div row,
        Backtest.row_trio_div row with
  | Some rank, Some win_odds, Some plc_odds, Some qui_div, Some trio_div =>
      Some (Backtest.row_name row,
            Backtest.mk_actual rank win_odds plc_odds qui_div trio_div)
  | _, _, _, _, _ => None
  end.

(** The row is read, and it is a row of that horse. *)
Definition row_for (name : string) (row : Backtest.result_row) : bool :=
  match row_entry row with
  | Some (n, _) => String.eqb n name
  | None => false
  end.

(** The same horse of the group, without a verdict of the collaborator. *)
Definition without_ai (x : Backtest.horse_input) : Backtest.horse_input :=
  Backtest.mk_input (Backtest.in_horse_name x) (Backtest.in_history x)
    (Backtest.in_train_recs x) (Backtest.in_weight x)
    (Backtest.in_weight_diff x) (Backtest.in_st_reports x) None.

(** Two analyses have the same name, total score, veto flag and rank. *)
Definition same_standing (a b : Analysis.t) : Prop :=
  Analysis.horse_name a = Analysis.horse_name b
  /\ Analysis.total_score a = Analysis.total_score b
  /\ Analysis.veto a = Analysis.veto b
  /\ Analysis.rank a = Analysis.rank b.

(** The race has actual ranks, so the loop of [run] simulates it. *)
Definition has_results (rc : Run.race) : bool :=
  match Backtest._get_actual_ranks (Run.r_race_res rc) with
  | [] => false
  | _ :: _ => true
  end.

(** The counters of the loop of [run] are in order. *)
Definition counters_ok (st : Run.state) : Prop :=
  (0 <= Run.veto_failed st <= Run.veto_total st)%Z
  /\ (0 <= Run.w_bonus_hit st <= Run.w_bonus_total st)%Z.

(** A percentage. *)
Definition percent (x : Q) : Prop := 0 <= x /\ x <= 100.


(** Two analyses have the same name, total score and veto flag: what the
    ranking reads of them. *)
Definition alike (a b : Analysis.t) : Prop :=
  Analysis.horse_name a = Analysis.horse_name b
  /\ Analysis.total_score a = Analysis.total_score b
  /\ Analysis.veto a = Analysis.veto b.


End Props.

(* ================================================================== *)
(** * Facts about the Python primitives *)
(* ================================================================== *)
Unset Implicit Arguments.

Module PyFacts.

Local Open Scope Q_scope.

Lemma Qltb_true (x y : Q) : Py.Qltb x y = true <-> x < y.
Proof.
  unfold Py.Qltb. rewrite negb_true_iff.
  split; intro H.
  - apply Qnot_le_lt. intro L. apply Qle_bool_iff in L. congruence.
  - destruct (Qle_bool y x) eqn:E; [|reflexivity].
    apply Qle_bool_iff in E. exfalso. exact (Qlt_not_le _ _ H E).
Qed.

Lemma Qltb_false (x y : Q) : Py.Qltb x y = false <-> y <= x.
Proof.
  unfold Py.Qltb. rewrite negb_false_iff. apply Qle_bool_iff.
Qed.

Lemma Qle_bool_false (x y : Q) : Qle_bool x y = false <-> y < x.
Proof.
  rewrite <- Qltb_true. unfold Py.Qltb. rewrite negb_true_iff. reflexivity.
Qed.

Lemma truthy_false (x : Q) : Py.truthy x = false <-> x == 0.
Proof.
  unfold Py.truthy. rewrite negb_false_iff. apply Qeq_bool_iff.
Qed.


Lemma Qmax_lower (x y : Q) : x <= Py.Qmax x y.
Proof.
  unfold Py.Qmax. destruct (Qle_bool x y) eqn:E.
  - now apply Qle_bool_iff.
  - apply Qle_refl.
Qed.

Lemma Qmin_upper (x y : Q) : Py.Qmin x y <= y.
Proof.
  unfold Py.Qmin. destruct (Qle_bool x y) eqn:E.
  - now apply Qle_bool_iff.
  - apply Qle_refl.
Qed.

Lemma Qmin_lower (b x y : Q) : b <= x -> b <= y -> b <= Py.Qmin x y.
Proof.
  intros Hx Hy. unfold Py.Qmin. now destruct (Qle_bool x y).
Qed.



(** Rounding to the nearest integer stays between integer bounds. *)
Lemma round_half_even_between (n m : Z) (x : Q) :
  inject_Z n <= x -> x <= inject_Z m ->
  (n <= Py.round_half_even x <= m)%Z.
Proof.
  intros Hn Hm.
  assert (Lo : (n <= Qfloor x)%Z).
  { rewrite <- (Qfloor_Z n). now apply Qfloor_resp_le. }
  assert (Hi : (Qfloor x <= m)%Z).
  { rewrite <- (Qfloor_Z m). now apply Qfloor_resp_le. }
  assert (Up : 0 < x - inject_Z (Qfloor x) -> (Qfloor x + 1 <= m)%Z).
  { intro P.
    assert (L : inject_Z (Qfloor x) < inject_Z m) by lra.
    rewrite <- Zlt_Qlt in L. lia. }
  unfold Py.round_half_even.
  destruct (x - inject_Z (Qfloor x) ?= 1 # 2) eqn:C.
  - apply Qeq_alt in C.
    destruct (Z.even (Qfloor x)); [lia|].
    split; [lia | apply Up; lra].
  - lia.
  - apply Qgt_alt in C. split; [lia | apply Up; lra].
Qed.

Lemma round1_between_0_100 (x : Q) : 0 <= x -> x <= 100 ->
  0 <= Py.round x 1 /\ Py.round x 1 <= 100.
Proof.
  intros H0 H1. unfold Py.round.
  change (inject_Z (Py.pow10 1)) with 10.
  destruct (round_half_even_between 0 1000 (x * 10)) as [A B].
  - change (inject_Z 0) with 0. lra.
  - change (inject_Z 1000) with 1000. lra.
  - rewrite Zle_Qle in A, B.
    change (inject_Z 0) with 0 in A. change (inject_Z 1000) with 1000 in B.
    set (k := inject_Z (Py.round_half_even (x * 10))) in *.
    split.
    + apply Qle_shift_div_l; lra.
    + apply Qle_shift_div_r; lra.
Qed.

Lemma Qmax_0_nonneg (x : Q) : 0 <= Py.Qmax 0 x.
Proof. apply Qmax_lower. Qed.


(** [round_half_even] gives an integer at distance at most 1/2. *)
Lemma round_half_even_close (x : Q) :
  Qabs (x - inject_Z (Py.round_half_even x)) <= 1 # 2.
Proof.
  pose proof (Qfloor_le x) as Lo.
  pose proof (Qlt_floor x) as Hi.
  rewrite inject_Z_plus in Hi. change (inject_Z 1) with 1 in Hi.
  apply Qabs_Qle_condition.
  unfold Py.round_half_even.
  destruct (x - inject_Z (Qfloor x) ?= 1 # 2) eqn:C.
  - apply Qeq_alt in C.
    destruct (Z.even (Qfloor x)).
    + split; lra.
    + rewrite inject_Z_plus. change (inject_Z 1) with 1. split; lra.
  - apply Qlt_alt in C. split; lra.
  - apply Qgt_alt in C. rewrite inject_Z_plus. change (inject_Z 1) with 1.
    split; lra.
Qed.

(** [prefix] and [str_in] are the prefix and the substring tests. *)
Lemma prefix_spec (a b : string) :
  prefix a b = true <-> exists post, b = (a ++ post)%string.
Proof.
  revert b. induction a as [|x a IH]; intro b.
  - cbn. split; [intros _; now exists b | destruct b; reflexivity].
  - destruct b as [|y b]; cbn.
    + split; [discriminate | intros (post & E); discriminate].
    + destruct (ascii_dec x y) as [->|N].
      * rewrite IH. split; intros (post & E); exists post.
        -- now rewrite E.
        -- now injection E.
      * split; [discriminate|]. intros (post & E). injection E as E _.
        congruence.
Qed.

Lemma str_in_spec (needle hay : string) :
  Py.str_in needle hay = true
  <-> exists pre post, hay = (pre ++ needle ++ post)%string.
Proof.
  induction hay as [|c hay IH]; cbn [Py.str_in].
  - rewrite orb_false_r, prefix_spec. split.
    + intros (post & E). now exists EmptyString, post.
    + intros (pre & post & E). exists post.
      destruct pre; [exact E | discriminate].
  - rewrite orb_true_iff, prefix_spec, IH. split.
    + intros [(post & E)|(pre & post & E)].
      * now exists EmptyString, post.
      * exists (String c pre), post. cbn. now rewrite E.
    + intros (pre & post & E). destruct pre as [|d pre].
      * left. now exists post.
      * right. cbn in E. injection E as _ E. now exists pre, post.
Qed.


End PyFacts.

(* ================================================================== *)
(** * Properties of QuantitativeAnalyzer *)
(* ================================================================== *)
Module QuantFacts.

Local Open Scope string_scope.
Local Open Scope Q_scope.

(** ** check_weight_veto *)


Lemma prev_weight_of_nonneg (race_history : list Race.t) :
  0 <= Quant.prev_weight_of race_history.
Proof.
  induction race_history as [|race rest IH]; cbn; [lra|].
  destruct (Py.Qltb 0 _) eqn:E; [|exact IH].
  apply PyFacts.Qltb_true in E. lra.
Qed.

(** C10.  When [current_weight] is 0, [check_weight_veto] returns veto=false
    with diff 0 and the no-data note, whatever the race history and whatever
    the supplied [weight_diff]: the pre-parsed delta is not looked at, even
    when its absolute value reaches the threshold. *)
Theorem check_weight_veto_zero_current_weight
    (self : Quant.analyzer) (current_weight : Q)
    (race_history : list Race.t) (weight_diff : Q) :
  current_weight == 0 ->
  Quant.check_weight_veto self current_weight race_history weight_diff
  = Weight.mk false 0 0 [Py.Lit "데이터 없음"].
Proof.
  intro H. unfold Quant.check_weight_veto.
  apply PyFacts.truthy_false in H. rewrite H. reflexivity.
Qed.

Lemma check_weight_veto_zero_current_weight_witness :
  0 == 0
  /\ Quant.weight_threshold Quant.default <= Qabs (-10)
  /\ Quant.check_weight_veto Quant.default 0
       [Race.mk "20250111" 12.1 12.3 1 "F" "4M" (Some 468) "0"] (-10)
     = Weight.mk false 0 0 [Py.Lit "데이터 없음"].
Proof.
  split; [reflexivity|]. split; [vm_compute; discriminate|].
  apply check_weight_veto_zero_current_weight. reflexivity.
Defined.



(** ** generate_trio_picks on a small field *)

Lemma valid_filter (ranked : list Horse.t) :
  filter (fun h => negb (Py.option_eqb rank_eqb (Horse.rank h) (Some RankVeto)))
         ranked
  = Spec.non_vetoed ranked.
Proof.
  unfold Spec.non_vetoed. apply filter_ext. intro h.
  now destruct (Horse.rank h) as [[i|]|].
Qed.

(** C8.  For every ranking with fewer than 3 non-vetoed horses, whatever keys
    its dicts have or miss and whatever the entries table,
    [generate_trio_picks] returns (it does not raise) the insufficient
    result: empty axis, partners and combinations, and a bet count of 0. *)
Theorem generate_trio_picks_insufficient
    (ranked : list Horse.t) (entries_df : option (list (string * string))) :
  (List.length (Spec.non_vetoed ranked) < 3)%nat ->
  Quant.generate_trio_picks ranked entries_df = Py.Ok Spec.insufficient
  /\ Trio.axis Spec.insufficient = []
  /\ Trio.partners Spec.insufficient = []
  /\ Trio.combinations Spec.insufficient = []
  /\ Trio.num_bets Spec.insufficient = 0%Z.
Proof.
  intro Hlen. split; [|repeat split].
  unfold Quant.generate_trio_picks. rewrite valid_filter.
  destruct (Spec.non_vetoed ranked) as [|a [|b [|c rest]]]; try reflexivity.
  cbn in Hlen. lia.
Qed.

Lemma generate_trio_picks_insufficient_witness :
  let ranked :=
    [Horse.mk (Some "A") None (Some (RankN 1)) (Some true) None None None None None;
     Horse.mk (Some "B") None None None None None None None None;
     Horse.mk (Some "C") None (Some RankVeto) None None None None None None] in
  (List.length (Spec.non_vetoed ranked) < 3)%nat
  /\ Quant.generate_trio_picks ranked None = Py.Ok Spec.insufficient.
Proof.
  cbv zeta. split; [cbn; lia|].
  apply generate_trio_picks_insufficient. cbn. lia.
Defined.

(** ** calc_interference_bonus and penalty reports *)

Lemma is_penalty_spec (report_text : string) :
  Quant.is_penalty report_text = true <-> Spec.has_penalty_keyword report_text.
Proof.
  unfold Quant.is_penalty, Spec.has_penalty_keyword. apply existsb_exists.
Qed.

Lemma interference_step_penalty (race_history : list Race.t)
    (st : list Interference.detail * Z * Z) (rpt : Report.t) :
  Quant.is_penalty (Report.report rpt) = true ->
  Quant.interference_step race_history st rpt = st.
Proof.
  intro H. unfold Quant.interference_step.
  destruct st as [[details total] count]. rewrite H. cbn [negb].
  now destruct (map fst (Quant.matched (Report.report rpt))).
Qed.

(** The early return on an empty list agrees with the loop run on it. *)
Lemma calc_interference_bonus_loop (steward_reports : list Report.t)
    (race_history : list Race.t) :
  Quant.calc_interference_bonus steward_reports race_history
  = Quant.interference_verdict
      (fold_left (Quant.interference_step race_history) steward_reports
                 ([], 0%Z, 0%Z)).
Proof.
  now destruct steward_reports.
Qed.

(** C7.  A steward report that contains a penalty keyword is left out of the
    interference scoring altogether: the loop's state (details, total score,
    count of qualifying reports) is the same after the report as before it,
    whether or not the report also has interference keywords, and so the
    result of [calc_interference_bonus] is the one for the list without that
    report. *)
Theorem penalty_report_excluded
    (before after : list Report.t) (rpt : Report.t) (race_history : list Race.t) :
  Spec.has_penalty_keyword (Report.report rpt) ->
  (forall st, Quant.interference_step race_history st rpt = st)
  /\ Quant.calc_interference_bonus (before ++ rpt :: after) race_history
     = Quant.calc_interference_bonus (before ++ after) race_history.
Proof.
  intro H. apply is_penalty_spec in H. split.
  - intro st. now apply interference_step_penalty.
  - rewrite !calc_interference_bonus_loop, !fold_left_app. cbn [fold_left].
    now rewrite interference_step_penalty.
Qed.

Lemma penalty_report_excluded_witness :
  let rpt := Report.mk "2025/01/11-5R" "진로 방해로 기수 경고" in
  let other := Report.mk "2025/01/04-3R" "출발 후 협착" in
  let history := [Race.mk "20250111" 13.2 12.4 4 "M" "3M" (Some 470) "0"] in
  Spec.has_penalty_keyword (Report.report rpt)
  /\ Quant.matched (Report.report rpt) = [("진로", 3%Z)]
  /\ Quant.calc_interference_bonus [rpt; other] history
     = Quant.calc_interference_bonus [other] history
  /\ Interference.interference_count
       (Quant.calc_interference_bonus [rpt; other] history) = 1%Z.
Proof.
  cbv zeta.
  assert (P : Spec.has_penalty_keyword "진로 방해로 기수 경고").
  { exists "경고". split; [now left | reflexivity]. }
  split; [exact P|]. split; [reflexivity|]. split; [|reflexivity].
  exact (proj2 (penalty_report_excluded []
                  [Report.mk "2025/01/04-3R" "출발 후 협착"]
                  (Report.mk "2025/01/11-5R" "진로 방해로 기수 경고")
                  [Race.mk "20250111" 13.2 12.4 4 "M" "3M" (Some 470) "0"] P)).
Defined.

(** ** analyze_horse *)


(** ** generate_trio_picks on exactly three horses *)


Lemma non_vetoed_rank (ranked : list Horse.t) (h : Horse.t) :
  In h (Spec.non_vetoed ranked) -> Horse.rank h <> Some RankVeto.
Proof.
  unfold Spec.non_vetoed. rewrite filter_In. intros [_ H] E.
  rewrite E in H. discriminate.
Qed.





(** ** calc_speed_score on sectional times *)







(** ** rank_horses *)

Lemma get_flag_veto (a : Analysis.t) :
  Analysis.get_flag "veto" a = Analysis.veto a.
Proof. reflexivity. Qed.

Lemma insert_desc_perm (x : Analysis.t) (l : list Analysis.t) :
  Permutation (Quant.insert_desc x l) (x :: l).
Proof.
  induction l as [|y l IH]; cbn; [apply Permutation_refl|].
  destruct (Qle_bool _ _); [apply Permutation_refl|].
  apply perm_trans with (y :: x :: l); [now apply perm_skip | apply perm_swap].
Qed.

Lemma sort_desc_perm (l : list Analysis.t) : Permutation (Quant.sort_desc l) l.
Proof.
  induction l as [|x l IH]; cbn; [apply perm_nil|].
  apply perm_trans with (x :: Quant.sort_desc l);
    [apply insert_desc_perm | now apply perm_skip].
Qed.

Lemma insert_desc_sorted (x : Analysis.t) (l : list Analysis.t) :
  StronglySorted Spec.score_ge l -> StronglySorted Spec.score_ge (Quant.insert_desc x l).
Proof.
  induction 1 as [|y l Hs IH Hy]; cbn.
  - repeat constructor.
  - destruct (Qle_bool _ _) eqn:E.
    + apply Qle_bool_iff in E.
      constructor; [now constructor|].
      constructor; [exact E|].
      eapply Forall_impl; [|exact Hy].
      unfold Spec.score_ge. intros z Hz. lra.
    + apply PyFacts.Qle_bool_false in E.
      constructor; [exact IH|].
      apply Forall_forall. intros z Hz.
      apply (Permutation_in _ (insert_desc_perm x l)) in Hz.
      destruct Hz as [<-|Hz].
      * unfold Spec.score_ge. lra.
      * rewrite Forall_forall in Hy. now apply Hy.
Qed.

Lemma sort_desc_sorted (l : list Analysis.t) :
  StronglySorted Spec.score_ge (Quant.sort_desc l).
Proof.
  induction l as [|x l IH]; cbn; [constructor | now apply insert_desc_sorted].
Qed.







End QuantFacts.

(* ================================================================== *)
(** * Properties of one race of the backtest *)
(* ================================================================== *)
Module BacktestFacts.

Local Open Scope string_scope.
Local Open Scope Q_scope.

(** ** The dict of actual ranks has each name once *)

Section DictKeys.
Variable V : Type.

Lemma dict_set_keys (k : string) (v : V) (d : list (string * V)) :
  map fst (Py.dict_set k v d)
  = if Py.list_in String.eqb k (map fst d) then map fst d
    else (map fst d ++ [k])%list.
Proof.
  induction d as [|[k' v'] d IH]; [reflexivity|].
  cbn [Py.dict_set map fst Py.list_in existsb].
  rewrite (String.eqb_sym k k').
  destruct (String.eqb k' k) eqn:E; [reflexivity|].
  cbn [map fst orb]. rewrite IH. unfold Py.list_in.
  now destruct (existsb (String.eqb k) (map fst d)).
Qed.

Lemma list_in_In (k : string) (l : list string) :
  Py.list_in String.eqb k l = true <-> In k l.
Proof.
  unfold Py.list_in. rewrite existsb_exists. split.
  - intros (x & Hx & E). apply String.eqb_eq in E. now subst.
  - intro H. exists k. split; [exact H | apply String.eqb_refl].
Qed.

Lemma dict_set_NoDup (k : string) (v : V) (d : list (string * V)) :
  NoDup (map fst d) -> NoDup (map fst (Py.dict_set k v d)).
Proof.
  intro H. rewrite dict_set_keys.
  destruct (Py.list_in String.eqb k (map fst d)) eqn:E; [exact H|].
  apply NoDup_app; [exact H | repeat constructor; intros [] |].
  intros x Hx [<-|[]]. apply list_in_In in Hx. congruence.
Qed.

End DictKeys.

Lemma actual_ranks_NoDup (race_res : list Backtest.result_row) :
  NoDup (map fst (Backtest._get_actual_ranks race_res)).
Proof.
  unfold Backtest._get_actual_ranks.
  assert (G : forall rows acc, NoDup (map fst acc) ->
    NoDup (map fst (fold_left
      (fun ranks row =>
         match Backtest.row_ord row, Backtest.row_winOdds row,
               Backtest.row_plcOdds row, Backtest.row_qui_div row,
               Backtest.row_trio_div row with
         | Some rank, Some win_odds, Some plc_odds, Some qui_div, Some trio_div =>
             Py.dict_set (Backtest.row_name row)
               (Backtest.mk_actual rank win_odds plc_odds qui_div trio_div) ranks
         | _, _, _, _, _ => ranks
         end) rows acc))).
  { induction rows as [|row rows IH]; intros acc H; [exact H|].
    cbn [fold_left]. apply IH.
    destruct (Backtest.row_ord row), (Backtest.row_winOdds row),
      (Backtest.row_plcOdds row), (Backtest.row_qui_div row),
      (Backtest.row_trio_div row); try exact H.
    now apply dict_set_NoDup. }
  apply G. constructor.
Qed.

Lemma name_of_rank_some (r : Z) (d : list (string * Backtest.actual)) (n : string) :
  Backtest.name_of_rank r d = Some n ->
  exists data, In (n, data) d /\ Backtest.rank data = r.
Proof.
  unfold Backtest.name_of_rank, Py.next.
  destruct (find _ d) as [[n' data]|] eqn:F; [|discriminate].
  cbn. intro E. injection E as <-.
  apply find_some in F. destruct F as [Hin Hr].
  exists data. split; [exact Hin | now apply Z.eqb_eq in Hr].
Qed.


(** ** The tests of the hit flags *)

Lemma name_eqb_true (a : string) (r : option string) :
  Backtest.name_eqb (Some a) r = true <-> r = Some a.
Proof.
  destruct r as [b|]; cbn; [|split; discriminate].
  rewrite String.eqb_eq. split; congruence.
Qed.




Lemma is_qui_hit_eq (sel : Backtest.selection) (d : list (string * Backtest.actual)) :
  let axis := Analysis.horse_name (Backtest.axis_horse sel) in
  let r1 := Backtest.name_of_rank 1 d in
  let r2 := Backtest.name_of_rank 2 d in
  Backtest.is_qui_hit (Backtest.race_metrics sel d)
  = if Py.list_in Backtest.name_eqb (Some axis) [r1; r2]
    then Backtest.in_picks (if Backtest.name_eqb (Some axis) r1 then r2 else r1)
           (map Analysis.horse_name (Backtest.selected_horses sel))
    else false.
Proof.
  cbv zeta. unfold Backtest.race_metrics.
  destruct (Py.list_in Backtest.name_eqb _ [_; _]);
    [destruct (Backtest.in_picks _ _)|];
    destruct (Py.list_in Backtest.name_eqb _ [_; _; _]);
    try destruct (_ =? 2)%nat; reflexivity.
Qed.

Lemma is_trio_hit_eq (sel : Backtest.selection) (d : list (string * Backtest.actual)) :
  let axis := Analysis.horse_name (Backtest.axis_horse sel) in
  let rank_names :=
    [Backtest.name_of_rank 1 d; Backtest.name_of_rank 2 d;
     Backtest.name_of_rank 3 d] in
  let my_picks := map Analysis.horse_name (Backtest.selected_horses sel) in
  Backtest.is_trio_hit (Backtest.race_metrics sel d)
  = if Py.list_in Backtest.name_eqb (Some axis) rank_names
    then (List.length
            (filter (fun n => Backtest.in_picks n my_picks)
               (filter (fun n => negb (Backtest.name_eqb n (Some axis)))
                       rank_names)) =? 2)%nat
    else false.
Proof.
  cbv zeta. unfold Backtest.race_metrics.
  destruct (Py.list_in Backtest.name_eqb _ [_; _]);
    [destruct (Backtest.in_picks _ _)|];
    destruct (Py.list_in Backtest.name_eqb _ [_; _; _]);
    try destruct (_ =? 2)%nat; reflexivity.
Qed.




(** ** Equality of analyses *)













(** ** The names of a ranking *)



Lemma filter_split_perm {A : Type} (p : A -> bool) (l : list A) :
  Permutation (filter (fun a => negb (p a)) l ++ filter p l) l.
Proof.
  induction l as [|x l IH]; [apply perm_nil|].
  cbn. destruct (p x); cbn.
  - apply Permutation_sym, Permutation_cons_app, Permutation_sym, IH.
  - now apply perm_skip.
Qed.


(** ** The selection *)

Lemma is_dark_horse_key_absent (a : Analysis.t) :
  Analysis.get "is_dark_horse" a = None
  /\ Analysis.get_flag "is_dark_horse" a = false.
Proof. split; reflexivity. Qed.

Lemma no_dark_candidates (others : list Analysis.t) :
  filter (Analysis.get_flag "is_dark_horse") others = [].
Proof.
  induction others as [|h rest IH]; [reflexivity | exact IH].
Qed.

Lemma filter_all {A : Type} (p : A -> bool) (l : list A) :
  (forall x, In x l -> p x = true) -> filter p l = l.
Proof.
  induction l as [|x l IH]; intro H; [reflexivity|].
  cbn. rewrite (H x) by now left.
  f_equal. apply IH. intros y Hy. apply H. now right.
Qed.

Lemma filter_none {A : Type} (p : A -> bool) (l : list A) :
  (forall x, In x l -> p x = false) -> filter p l = [].
Proof.
  induction l as [|x l IH]; intro H; [reflexivity|].
  cbn. rewrite (H x) by now left.
  apply IH. intros y Hy. apply H. now right.
Qed.









End BacktestFacts.

(* ================================================================== *)
(** * The embedding run on sample data *)
(* ================================================================== *)
Module Examples.

Local Open Scope string_scope.
Local Open Scope Q_scope.

(** The horse of the test block: speed 29.9 (vector Maintaining), position
    235, training 70, no veto, total 112.0. *)
Example sample_result :
  Analysis.speed_score Sample.result == 29.9
  /\ Analysis.g1f_vector Sample.result = "Maintaining"
  /\ Analysis.position_score Sample.result == 235
  /\ Analysis.training_score Sample.result == 70
  /\ Analysis.veto Sample.result = false
  /\ Analysis.total_score Sample.result == 112.0.
Proof. repeat split; reflexivity. Qed.

(** A supplied delta of -10 against the threshold 5: veto, with the note
    telling a decrease of 10. *)
Example weight_decrease :
  Quant.check_weight_veto Quant.default 470 Sample.sample_history (-10)
  = Weight.mk true (-10) (470 - -10)
      [Py.Lit "VETO: 체중 "; Py.FNum 10; Py.Lit "kg "; Py.Lit "감소";
       Py.Lit " (임계치 "; Py.FNum 5; Py.Lit "kg 초과)"].
Proof. reflexivity. Qed.

(** Without a supplied delta the last recorded weight, 468, is compared. *)
Example weight_from_history :
  Quant.check_weight_veto Quant.default 470 Sample.sample_history 0
  = Weight.mk false (470 - 468) 468
      [Py.Lit "체중 변동 "; Py.FSigned1 (470 - 468); Py.Lit "kg (전주 ";
       Py.FNum 468; Py.Lit "kg)"].
Proof. reflexivity. Qed.

(** A record time stands in for missing sectionals: 1:13.4 is 73.4 s. *)
Example speed_from_record_time :
  let r := Quant.calc_speed_score Quant.default
             [Race.mk "" 0 0 1 "" "" None "1:13.4"] in
  Speed.g1f_vector r = "기록기반" /\ Speed.speed_score r == 33.0.
Proof. split; reflexivity. Qed.

(** An interference report on a run with a fast finish, and a report of a
    penalty. *)
Example interference_sample :
  let r := Quant.calc_interference_bonus
             [Report.mk "2025/01/11-5R" "진로 방해 협착";
              Report.mk "2025/01/04-2R" "진로 방해로 기수 경고"]
             [Race.mk "20250111" 13.0 12.9 4 "M" "3M" (Some 470) "0"] in
  Interference.interference_score r = 13%Z
  /\ Interference.interference_count r = 1%Z
  /\ Interference.dark_horse r = true.
Proof. repeat split; reflexivity. Qed.

(** The ranking of the sample field: by score, the two horses of 61.0 in
    input order, the vetoed horse last. *)
Example ranking_sample :
  map (fun a => (Analysis.horse_name a, Analysis.rank a))
      (Quant.rank_horses Sample.field)
  = [("나", Some (RankN 1)); ("라", Some (RankN 2)); ("가", Some (RankN 3));
     ("마", Some (RankN 4)); ("바", Some (RankN 5)); ("사", Some (RankN 6));
     ("아", Some (RankN 7)); ("다", Some RankVeto)].
Proof. reflexivity. Qed.

(** The picks for it: axis 2, challengers 4 and 1, partners 5, 6 and 7 by
    rank and 8 by its dark-horse flag. *)
Example trio_sample :
  exists t,
    Quant.generate_trio_picks
      (map Horse.of_analysis (Quant.rank_horses Sample.field)) None = Py.Ok t
    /\ Trio.axis t = ["2"]
    /\ Trio.partners t = ["4"; "1"; "5"; "6"; "7"; "8"]
    /\ Trio.combinations t
       = ["1-2-4"; "1-2-5"; "1-2-6"; "1-2-7"; "1-2-8";
          "2-4-5"; "2-4-6"; "2-4-7"; "2-4-8"]
    /\ Trio.num_bets t = 9%Z
    /\ map Trio.d_hrNo (Trio.dark_horses t) = ["5"; "8"].
Proof. eexists. repeat split; reflexivity. Qed.

(** The backtest strategy on the same ranking, and its hit flags when the
    horses 라, 나, 마 finish first, second and third. *)
Example race_sample :
  let result name ord :=
    Backtest.mk_row (Some ord) name (Some 0) (Some 0) (Some 12.5) (Some 40.0) in
  let race_res := [result "라" 1%Z; result "나" 2%Z; result "마" 3%Z;
                   result "가" 4%Z] in
  exists sel,
    Backtest.select_horses (Quant.rank_horses Sample.field) = Py.Ok sel
    /\ map Analysis.horse_name (Backtest.selected_horses sel)
       = ["나"; "라"; "가"; "마"; "바"; "사"]
    /\ let o := Backtest.race_metrics sel (Backtest._get_actual_ranks race_res) in
       Backtest.actual_rank o = 2%Z
       /\ Backtest.is_win_hit o = false
       /\ Backtest.is_qui_hit o = true
       /\ Backtest.is_trio_hit o = true.
Proof. cbv zeta. eexists. repeat split; reflexivity. Qed.

End Examples.

(* ================================================================== *)
(** * Further properties of the scorers *)
(* ================================================================== *)
Module ScorerFacts.

Local Open Scope string_scope.
Local Open Scope Q_scope.

(** ** calc_speed_score *)


(** The score of every history lies between 0 and 100, on the sectional
    path as on the record-time fallback. *)
Theorem speed_score_bounds (self : Quant.analyzer) (race_history : list Race.t) :
  let r := Quant.calc_speed_score self race_history in
  0 <= Speed.speed_score r /\ Speed.speed_score r <= 100.
Proof.
  cbv zeta.
  destruct race_history as [|race rest]; [cbn; split; discriminate|].
  assert (G : exists x, 0 <= x
              /\ Speed.speed_score (Quant.calc_speed_score self (race :: rest))
                 = Py.round (Py.Qmin x 100) 1).
  { unfold Quant.calc_speed_score.
    destruct (Qeq_bool _ 0 && Qeq_bool _ 0).
    - destruct (flat_map Quant.rc_time_vals _) as [|t ts].
      + exists 0. split; [lra | reflexivity].
      + eexists. split; [|reflexivity]. apply PyFacts.Qmax_0_nonneg.
    - eexists. split; [|reflexivity].
      repeat match goal with
             | |- context [if ?c then _ else _] => destruct c
             end;
        repeat match goal with
               | |- context [Py.Qmax 0 ?e] =>
                   let H := fresh in
                   pose proof (PyFacts.Qmax_0_nonneg e) as H;
                   generalize dependent (Py.Qmax 0 e); intros
               end;
        lra. }
  destruct G as (x & Hx & E). rewrite E.
  apply PyFacts.round1_between_0_100.
  - apply PyFacts.Qmin_lower; lra.
  - apply PyFacts.Qmin_upper.
Qed.



(** ** calc_position_score *)

Lemma fold_left_same {A B : Type} (f g : A -> B -> A) (l : list B) (a : A) :
  (forall x y, f x y = g x y) -> fold_left f l a = fold_left g l a.
Proof.
  intro H. revert a. induction l as [|y l IH]; intro a; [reflexivity|].
  cbn. now rewrite H, IH.
Qed.

Lemma calc_position_score_loop (self : Quant.analyzer) (race_history : list Race.t) :
  Quant.calc_position_score self race_history
  = let '(total_score, w_bonus_count, details) :=
      fold_left (Props.position_step self) (Props.recent self race_history)
                (0, 0%Z, []) in
    Position.mk total_score w_bonus_count details.
Proof.
  destruct race_history as [|race rest].
  - unfold Props.recent, Py.slice_to.
    destruct (Quant.recent_n self <? 0)%Z; rewrite firstn_nil; reflexivity.
  - unfold Quant.calc_position_score. fold (Props.recent self (race :: rest)).
    erewrite fold_left_same; [reflexivity|].
    intros [[t w] d] x. reflexivity.
Qed.

(** What the loop adds to its state. *)
Lemma position_loop (self : Quant.analyzer) (recent : list Race.t) :
  forall (t0 : Q) (w0 : Z) (d0 : list Position.detail),
  exists (t : Q) (w : Z) (ds : list Position.detail),
    fold_left (Props.position_step self) recent (t0, w0, d0)
    = (t, w, (d0 ++ ds)%list)
    /\ map Position.d_ord ds = map Race.ord recent
    /\ t == t0 + Py.Qsum (map Position.d_score ds)
    /\ Forall (fun d => Props.placed d = false -> Position.d_score d = 0) ds
    /\ (w0 <= w <= w0 + Props.placed_count ds)%Z.
Proof.
  induction recent as [|race rest IH]; intros t0 w0 d0.
  - exists t0, w0, []. rewrite app_nil_r. cbn.
    repeat split; try lra; try lia. constructor.
  - cbn [fold_left]. unfold Props.position_step at 2.
    set (ord_val := Race.ord race).
    set (pos := Py.upper (Race.pos race)).
    set (corner := Py.upper (Race.corner race)).
    set (placed := (ord_val <=? 3)%Z).
    set (wide := placed && (Py.str_in "W" pos || Py.str_in "W" corner)).
    set (race_score := if placed then _ else 0).
    set (d := Position.mk_detail ord_val pos corner race_score).
    destruct (IH (t0 + race_score) (if wide then (w0 + 1)%Z else w0)
                 (d0 ++ [d])%list) as (t & w & ds & E & Ho & Ht & Hz & Hw).
    exists t, w, (d :: ds).
    split; [rewrite E, <- app_assoc; reflexivity|].
    split; [cbn; now rewrite Ho|].
    split; [rewrite Ht; unfold Py.Qsum; cbn [map fold_right];
            change (Position.d_score d) with race_score; ring|].
    split.
    + constructor; [|exact Hz].
      unfold Props.placed. cbn. fold placed. intro P. subst race_score.
      now rewrite P.
    + unfold Props.placed_count in *. cbn [filter].
      unfold Props.placed at 1. cbn [Position.d_ord d]. fold placed.
      destruct placed eqn:P; cbn [andb] in *.
      * cbn [List.length]. destruct wide; lia.
      * subst wide. cbn in Hw. lia.
Qed.

Lemma position_breakdown (self : Quant.analyzer) (race_history : list Race.t) :
  let r := Quant.calc_position_score self race_history in
  map Position.d_ord (Position.details r)
  = map Race.ord (Props.recent self race_history)
  /\ Position.position_score r
     == Py.Qsum (map Position.d_score (Position.details r))
  /\ Forall (fun d => Props.placed d = false -> Position.d_score d = 0)
            (Position.details r)
  /\ (0 <= Position.w_bonus_count r
      <= Z.of_nat (List.length (filter Props.placed (Position.details r))))%Z.
Proof.
  cbv zeta. rewrite calc_position_score_loop.
  destruct (position_loop self (Props.recent self race_history) 0 0%Z [])
    as (t & w & ds & E & Ho & Ht & Hz & Hw).
  rewrite E. cbn [app Position.details Position.position_score
                  Position.w_bonus_count].
  split; [exact Ho|]. split; [rewrite Ht; ring|]. split; [exact Hz|].
  unfold Props.placed_count in Hw. lia.
Qed.

(** The breakdown [calc_position_score] returns has one entry for each race
    of the recent window, in order; the position score is the sum of the
    entries' scores; a run outside the first three scores 0; and the count
    of wide-running bonuses is at most the number of placed runs. *)
Theorem position_score_breakdown (self : Quant.analyzer) (race_history : list Race.t) :
  let r := Quant.calc_position_score self race_history in
  map Position.d_ord (Position.details r)
  = map Race.ord (Props.recent self race_history)
  /\ Position.position_score r
     == Py.Qsum (map Position.d_score (Position.details r))
  /\ Forall (fun d => Props.placed d = false -> Position.d_score d = 0)
            (Position.details r)
  /\ (0 <= Position.w_bonus_count r
      <= Z.of_nat (List.length (filter Props.placed (Position.details r))))%Z.
Proof.
  cbv zeta. rewrite calc_position_score_loop.
  destruct (position_loop self (Props.recent self race_history) 0 0%Z [])
    as (t & w & ds & E & Ho & Ht & Hz & Hw).
  rewrite E. cbn [app Position.details Position.position_score
                  Position.w_bonus_count].
  split; [exact Ho|]. split; [rewrite Ht; ring|]. split; [exact Hz|].
  unfold Props.placed_count in Hw. lia.
Qed.

Lemma Qsum_zero (l : list Q) : Forall (fun x => x = 0) l -> Py.Qsum l == 0.
Proof.
  induction 1 as [|x l Hx _ IH]; cbn; [reflexivity|].
  rewrite Hx, IH. reflexivity.
Qed.

(** A horse that was never placed in its recent races has position score 0
    and no wide-running bonus, whatever its running positions. *)
Theorem position_score_unplaced (self : Quant.analyzer) (race_history : list Race.t) :
  Forall (fun race => (3 < Race.ord race)%Z) (Props.recent self race_history) ->
  let r := Quant.calc_position_score self race_history in
  Position.position_score r == 0 /\ Position.w_bonus_count r = 0%Z.
Proof.
  intros Hall r.
  destruct (position_breakdown self race_history) as (Ho & Ht & Hz & Hw).
  fold r in Ho, Ht, Hz, Hw.
  assert (Hun : Forall (fun d => Props.placed d = false) (Position.details r)).
  { apply Forall_forall. intros d Hd.
    apply (in_map Position.d_ord) in Hd. rewrite Ho in Hd.
    apply in_map_iff in Hd. destruct Hd as (race & Eo & Hr).
    rewrite Forall_forall in Hall. specialize (Hall race Hr).
    unfold Props.placed. rewrite <- Eo. apply Z.leb_gt. exact Hall. }
  split.
  - rewrite Ht. apply Qsum_zero. apply Forall_map.
    rewrite Forall_forall in *. intros d Hd. apply Hz; [exact Hd | now apply Hun].
  - rewrite (BacktestFacts.filter_none Props.placed _ (proj1 (Forall_forall _ _) Hun)) in Hw. cbn in Hw. lia.
Qed.

Lemma position_score_unplaced_witness :
  let history :=
    [Race.mk "20250111" 12.0 12.6 5 "W" "4M" (Some 470) "0";
     Race.mk "20250104" 12.2 12.8 99 "F" "3M" (Some 468) "0"] in
  Forall (fun race => (3 < Race.ord race)%Z) (Props.recent Quant.default history)
  /\ Position.position_score (Quant.calc_position_score Quant.default history) == 0.
Proof.
  cbv zeta.
  assert (A : Forall (fun race => (3 < Race.ord race)%Z)
                (Props.recent Quant.default
                   [Race.mk "20250111" 12.0 12.6 5 "W" "4M" (Some 470) "0";
                    Race.mk "20250104" 12.2 12.8 99 "F" "3M" (Some 468) "0"])).
  { repeat constructor. }
  split; [exact A|].
  exact (proj1 (position_score_unplaced Quant.default _ A)).
Defined.

(** ** calc_training_score *)

(** The training score never exceeds 100; the session count is the number
    of records and the strong count lies between 0 and it; and when the
    per-session points and the strong bonus are not negative, neither is
    the score. *)
Theorem training_score_bounds
    (self : Quant.analyzer) (training_records : list TrainingRecord.t) :
  let r := Quant.calc_training_score self training_records in
  Training.training_score r <= 100
  /\ Training.count r = Z.of_nat (List.length training_records)
  /\ (0 <= Training.strong_count r <= Training.count r)%Z
  /\ (0 <= Quant.train_base self -> 0 <= Quant.train_strong_bonus self ->
      0 <= Training.training_score r).
Proof.
  cbv zeta. unfold Quant.calc_training_score.
  destruct training_records as [|rec rest].
  { cbn. repeat split; try lia; try discriminate; intros; lra. }
  set (records := rec :: rest).
  set (strong := filter _ records).
  assert (Hs : (List.length strong <= List.length records)%nat)
    by apply filter_length_le.
  assert (Hc : 0 <= inject_Z (Z.of_nat (List.length records))).
  { change 0 with (inject_Z 0). rewrite <- Zle_Qle. lia. }
  destruct (_ && _); [|destruct (_ <=? _)%Z; [|destruct (0 <? _)%Z]];
    cbn [Training.training_score Training.count Training.strong_count];
    (split; [apply PyFacts.Qmin_upper|]);
    (split; [reflexivity|]);
    (split; [lia|]);
    intros Hb Hbonus; (apply PyFacts.Qmin_lower; [|lra]);
    pose proof (Qmult_le_0_compat _ _ Hc Hb); lra.
Qed.

(** ** calc_interference_bonus *)

Lemma keyword_weights_at_least_3 :
  Forall (fun kw => (3 <= snd kw)%Z) Quant.interference_keywords.
Proof. repeat constructor; cbn; lia. Qed.

Lemma matched_score (report_text : string) :
  Quant.matched report_text <> [] ->
  (3 <= fold_right Z.add 0 (map snd (Quant.matched report_text)))%Z.
Proof.
  unfold Quant.matched.
  assert (G : forall l, Forall (fun kw : string * Z => (3 <= snd kw)%Z) l ->
              l <> [] -> (3 <= fold_right Z.add 0 (map snd l))%Z).
  { intros l Hl Hne. destruct Hl as [|kw l Hk Hl]; [contradiction|].
    cbn. clear Hne.
    assert (0 <= fold_right Z.add 0 (map snd l))%Z; [|lia].
    induction Hl as [|kw' l' Hk' _ IH]; cbn; lia. }
  apply G. apply Forall_forall. intros kw Hin.
  apply filter_In in Hin. destruct Hin as [Hin _].
  pose proof keyword_weights_at_least_3 as W. rewrite Forall_forall in W.
  now apply W.
Qed.

(** What the loop over the reports adds to its state. *)
Lemma interference_loop (race_history : list Race.t) (reports : list Report.t) :
  forall (d0 : list Interference.detail) (t0 c0 : Z),
  exists ds : list Interference.detail,
    fold_left (Quant.interference_step race_history) reports (d0, t0, c0)
    = ((d0 ++ ds)%list, (t0 + Props.detail_sum ds)%Z,
       (c0 + Z.of_nat (List.length ds))%Z)
    /\ map Interference.d_date ds
       = map Report.date (filter Props.qualifies reports)
    /\ Forall (fun d => (3 <= Interference.d_score d <= 15)%Z) ds.
Proof.
  induction reports as [|rpt rest IH]; intros d0 t0 c0.
  - exists []. rewrite app_nil_r. cbn. rewrite !Z.add_0_r.
    repeat split. constructor.
  - cbn [fold_left filter].
    unfold Quant.interference_step at 2, Props.qualifies at 1.
    pose proof (matched_score (Report.report rpt)) as Hk.
    destruct (Quant.matched (Report.report rpt)) as [|kw kws] eqn:M.
    + cbn [map]. destruct (IH d0 t0 c0) as (ds & E & Hd & Hs).
      exists ds. now rewrite E.
    + cbn [map] in Hk |- *.
      destruct (Quant.is_penalty (Report.report rpt)); cbn [negb].
      * destruct (IH d0 t0 c0) as (ds & E & Hd & Hs).
        exists ds. now rewrite E.
      * specialize (Hk ltac:(discriminate)).
        set (ks := fold_right Z.add 0%Z (snd kw :: map snd kws)) in *.
        clearbody ks.
        set (g := Quant.g1f_at _ race_history). clearbody g.
        assert (B : exists bonus note,
                  (if Py.Qltb 0 g
                   then if Qle_bool g 12.5
                        then (8%Z, [Py.Lit "[끝걸음 매우 강함 G1F="; Py.FNum g; Py.Lit "]"])
                        else if Qle_bool g 13.0
                             then (5%Z, [Py.Lit "[끝걸음 강함 G1F="; Py.FNum g; Py.Lit "]"])
                             else if Qle_bool g 13.5
                                  then (3%Z, [Py.Lit "[끝걸음 양호 G1F="; Py.FNum g; Py.Lit "]"])
                                  else (0%Z, [])
                   else (0%Z, [])) = (bonus, note) /\ (0 <= bonus)%Z).
        { destruct (Py.Qltb 0 g); [destruct (Qle_bool g 12.5);
            [|destruct (Qle_bool g 13.0); [|destruct (Qle_bool g 13.5)]]|];
            eexists; eexists; (split; [reflexivity | lia]). }
        destruct B as (bonus & note & EB & HB). rewrite EB.
        set (d := Interference.mk_detail (Report.date rpt) (fst kw :: map fst kws)
                    g note (Z.min (ks + bonus) 15)).
        destruct (IH (d0 ++ [d])%list (t0 + Z.min (ks + bonus) 15)%Z (c0 + 1)%Z)
          as (ds & E & Hd & Hs).
        exists (d :: ds).
        split.
        { etransitivity; [exact E|]. rewrite <- app_assoc.
          unfold Props.detail_sum. subst d.
          cbn [map fold_right List.length app Interference.d_score].
          f_equal; [f_equal|]; try reflexivity;
            [ring | rewrite Nat2Z.inj_succ; ring]. }
        split; [cbn; now rewrite Hd|].
        constructor; [subst d; cbn [Interference.d_score]; lia | exact Hs].
Qed.

(** The interference score lies between 0 and 25 and is the sum of the
    per-report scores capped at 25; every counted report scores between 3
    and 15; and the count and the breakdown cover exactly the reports that
    have an interference keyword and no penalty keyword, in order. *)
Theorem interference_score_bounds
    (steward_reports : list Report.t) (race_history : list Race.t) :
  let r := Quant.calc_interference_bonus steward_reports race_history in
  let counted := filter Props.qualifies steward_reports in
  (0 <= Interference.interference_score r <= 25)%Z
  /\ Interference.interference_score r
     = Z.min (Props.detail_sum (Interference.details r)) 25
  /\ Forall (fun d => (3 <= Interference.d_score d <= 15)%Z)
            (Interference.details r)
  /\ Interference.interference_count r = Z.of_nat (List.length counted)
  /\ map Interference.d_date (Interference.details r) = map Report.date counted.
Proof.
  cbv zeta. rewrite QuantFacts.calc_interference_bonus_loop.
  destruct (interference_loop race_history steward_reports [] 0%Z 0%Z)
    as (ds & E & Hd & Hs).
  rewrite E. unfold Quant.interference_verdict. cbn [app].
  assert (Hsum : (0 <= Props.detail_sum ds)%Z).
  { unfold Props.detail_sum. clear -Hs.
    induction Hs as [|d l Hd _ IH]; cbn; lia. }
  assert (Hlen : List.length ds = List.length (filter Props.qualifies steward_reports)).
  { rewrite <- (length_map Interference.d_date ds), Hd. apply length_map. }
  destruct (1 <=? _)%nat; [|destruct (2 <=? _)%Z];
    cbn [Interference.interference_score Interference.details
         Interference.interference_count];
    (split; [lia|]); (split; [reflexivity|]); (split; [exact Hs|]);
    (split; [rewrite Hlen; lia | exact Hd]).
Qed.

(** A horse is flagged dark-horse exactly when one counted report belongs
    to a run with a late sectional above 0 and at most 13.0, or when at
    least two reports are counted.  A flagged horse has a counted report
    and a reason; an unflagged horse has the empty reason. *)
Theorem dark_horse_flag
    (steward_reports : list Report.t) (race_history : list Race.t) :
  let r := Quant.calc_interference_bonus steward_reports race_history in
  (Interference.dark_horse r = true
   <-> (exists d, In d (Interference.details r) /\ Props.fast_finish d = true)
       \/ (2 <= Interference.interference_count r)%Z)
  /\ (Interference.dark_horse r = true ->
      (1 <= Interference.interference_count r)%Z
      /\ Interference.dark_horse_reason r <> [])
  /\ (Interference.dark_horse r = false -> Interference.dark_horse_reason r = []).
Proof.
  cbv zeta. rewrite QuantFacts.calc_interference_bonus_loop.
  destruct (interference_loop race_history steward_reports [] 0%Z 0%Z)
    as (ds & E & Hd & Hs).
  rewrite E. unfold Quant.interference_verdict. cbn [app].
  fold Props.fast_finish.
  change (fun d : Interference.detail =>
            Py.Qltb 0 (Interference.d_g1f d) && Qle_bool (Interference.d_g1f d) 13.0)
    with Props.fast_finish.
  destruct (filter Props.fast_finish ds) as [|d fs] eqn:F.
  - assert (NF : ~ exists d, In d ds /\ Props.fast_finish d = true).
    { intros (d & Hin & Hf).
      assert (X : In d (filter Props.fast_finish ds)) by now apply filter_In.
      rewrite F in X. destruct X. }
    cbn [List.length Nat.leb].
    destruct (2 <=? 0 + Z.of_nat (List.length ds))%Z eqn:C;
      cbn [Interference.dark_horse Interference.details
           Interference.interference_count Interference.dark_horse_reason].
    + apply Z.leb_le in C.
      split; [split; [intros _; now right | reflexivity]|].
      split; [intros _; split; [lia | discriminate] | discriminate].
    + apply Z.leb_gt in C.
      split; [split; [discriminate | intros [H|H]; [contradiction | lia]]|].
      split; [discriminate | reflexivity].
  - assert (Hin : In d ds /\ Props.fast_finish d = true).
    { apply filter_In. rewrite F. now left. }
    cbn [List.length Nat.leb
         Interference.dark_horse Interference.details
         Interference.interference_count Interference.dark_horse_reason].
    split; [split; [intros _; left; now exists d | reflexivity]|].
    split; [|discriminate].
    intros _. split; [|discriminate].
    destruct ds as [|d' ds']; [destruct (proj1 Hin)|]. cbn [List.length]. lia.
Qed.

(** ** check_weight_veto and analyze_horse *)

Lemma weight_check_facts
    (self : Quant.analyzer) (current_weight : Q)
    (race_history : list Race.t) (weight_diff : Q) :
  let r := Quant.check_weight_veto self current_weight race_history weight_diff in
  (~ current_weight == 0 ->
   ~ weight_diff == 0 \/ 0 < Quant.prev_weight_of race_history ->
   Weight.diff r == current_weight - Weight.ideal_weight r)
  /\ (Weight.veto r = true <-> Props.veto_note (Weight.note r))
  /\ Weight.note r <> [].
Proof.
  cbv zeta. unfold Quant.check_weight_veto, Props.veto_note.
  assert (NV : forall s rest (t : Py.text), t = Py.Lit s :: rest ->
            prefix "VETO: " s = false ->
            ~ exists s' rest', t = Py.Lit s' :: rest' /\ prefix "VETO: " s' = true).
  { intros s rest t -> P (s' & rest' & E & P'). injection E as -> _. congruence. }
  destruct (Py.truthy current_weight) eqn:Ecw; cbn [negb].
  - destruct (Qeq_bool weight_diff 0) eqn:Ewd; cbn [negb].
    + apply Qeq_bool_iff in Ewd.
      destruct (Qeq_bool (Quant.prev_weight_of race_history) 0) eqn:Ep;
        cbn [Weight.veto Weight.diff Weight.note Weight.ideal_weight].
      * apply Qeq_bool_iff in Ep.
        split; [intros _ [N|P]; [contradiction | lra]|].
        split; [|discriminate].
        split; [discriminate|].
        intro H. exfalso. revert H. eapply NV; reflexivity.
      * split; [intros; reflexivity|].
        destruct (Qle_bool _ _); (split; [|discriminate]).
        -- split; [intros _; eexists; eexists; split; reflexivity | reflexivity].
        -- split; [discriminate|].
           intro H. exfalso. revert H. eapply NV; reflexivity.
    + cbn [Weight.veto Weight.diff Weight.note Weight.ideal_weight].
      split; [intros; ring|].
      destruct (Qle_bool _ _); (split; [|discriminate]).
      * split; [intros _; eexists; eexists; split; reflexivity | reflexivity].
      * split; [discriminate|].
        intro H. exfalso. revert H. eapply NV; reflexivity.
  - apply PyFacts.truthy_false in Ecw.
    cbn [Weight.veto Weight.diff Weight.note Weight.ideal_weight].
    split; [intros N; contradiction|].
    split; [|discriminate].
    split; [discriminate|].
    intro H. exfalso. revert H. eapply NV; reflexivity.
Qed.

(** Whenever [check_weight_veto] compares the current weight with something
    (the current weight is not 0 and a delta is supplied or a weight is on
    record), the delta it returns is the current weight minus the ideal
    weight it returns; and its note begins with "VETO: " exactly when the
    veto flag is set, on every input. *)
Theorem check_weight_veto_consistent
    (self : Quant.analyzer) (current_weight : Q)
    (race_history : list Race.t) (weight_diff : Q) :
  let r := Quant.check_weight_veto self current_weight race_history weight_diff in
  (~ current_weight == 0 ->
   ~ weight_diff == 0 \/ 0 < Quant.prev_weight_of race_history ->
   Weight.diff r == current_weight - Weight.ideal_weight r)
  /\ (Weight.veto r = true <-> Props.veto_note (Weight.note r))
  /\ Weight.note r <> [].
Proof.
  exact (weight_check_facts self current_weight race_history weight_diff).
Qed.

Lemma check_weight_veto_consistent_witness :
  let r := Quant.check_weight_veto Quant.default 470
             [Race.mk "20250104" 12.2 12.8 2 "M" "3M" (Some 462) "0"] 0 in
  ~ 470 == 0
  /\ 0 < Quant.prev_weight_of
           [Race.mk "20250104" 12.2 12.8 2 "M" "3M" (Some 462) "0"]
  /\ Weight.diff r == 470 - Weight.ideal_weight r
  /\ Weight.veto r = true
  /\ Props.veto_note (Weight.note r).
Proof.
  cbv zeta.
  assert (A : ~ 470 == 0) by (intro H; discriminate H).
  assert (B : 0 < Quant.prev_weight_of
                    [Race.mk "20250104" 12.2 12.8 2 "M" "3M" (Some 462) "0"])
    by reflexivity.
  destruct (check_weight_veto_consistent Quant.default 470
              [Race.mk "20250104" 12.2 12.8 2 "M" "3M" (Some 462) "0"] 0)
    as (H1 & H2 & _).
  split; [exact A|]. split; [exact B|].
  split; [exact (H1 A (or_intror B))|].
  split; [reflexivity | apply H2; reflexivity].
Defined.

(** The analysis carries a veto reason exactly for a vetoed horse: the
    reason is the note of the weight check when the horse is vetoed and the
    empty text otherwise, and the veto flag is that of the weight check for
    the same weight, history and delta. *)
Theorem analyze_horse_veto_reason
    (self : Quant.analyzer) (horse_name : string) (race_history : list Race.t)
    (training_records : list TrainingRecord.t) (current_weight weight_diff : Q)
    (steward_reports : option (list Report.t)) :
  let a := Quant.analyze_horse self horse_name race_history training_records
             current_weight weight_diff steward_reports in
  let w := Quant.check_weight_veto self current_weight race_history weight_diff in
  Analysis.veto a = Weight.veto w
  /\ (Analysis.veto a = true <-> Analysis.veto_reason a <> [])
  /\ (Analysis.veto a = true -> Analysis.veto_reason a = Weight.note w
                                /\ Props.veto_note (Analysis.veto_reason a)).
Proof.
  cbv zeta. unfold Quant.analyze_horse.
  cbn [Analysis.veto Analysis.veto_reason].
  destruct (weight_check_facts self current_weight race_history weight_diff)
    as (_ & Hnote & Hne).
  split; [reflexivity|].
  destruct (Weight.veto _) eqn:V.
  - split; [split; [intros _; exact Hne | reflexivity]|].
    intros _. split; [reflexivity | now apply Hnote].
  - split; [split; [discriminate | intro H; now contradiction H] | discriminate].
Qed.


End ScorerFacts.

(* ================================================================== *)
(** * Further properties of the ranking and the picks *)
(* ================================================================== *)
Module RankingFacts.

Local Open Scope string_scope.
Local Open Scope Q_scope.

(** ** rank_horses *)

Lemma rank_horses_unfold (analyses : list Analysis.t) :
  Quant.rank_horses analyses
  = (Quant.enumerate_rank 1 (Quant.sort_desc (Props.not_vetoed analyses))
     ++ map (Analysis.set_rank RankVeto) (filter Analysis.veto analyses))%list.
Proof. reflexivity. Qed.

Lemma enumerate_rank_forall (P : Analysis.t -> Prop) (valid : list Analysis.t) :
  (forall i a, In a valid -> P (Analysis.set_rank (RankN i) a)) ->
  forall i, Forall P (Quant.enumerate_rank i valid).
Proof.
  induction valid as [|h rest IH]; intros H i; cbn; constructor.
  - apply H. now left.
  - apply IH. intros j a Ha. apply H. now right.
Qed.

Lemma enumerate_rank_forget (valid : list Analysis.t) (i : Z) :
  map (Analysis.set_rank RankVeto) (Quant.enumerate_rank i valid)
  = map (Analysis.set_rank RankVeto) valid.
Proof.
  revert i. induction valid as [|h rest IH]; intro i; [reflexivity|].
  cbn [Quant.enumerate_rank map]. now rewrite IH.
Qed.

Lemma set_rank_twice (l : list Analysis.t) (r : rank_t) :
  map (Analysis.set_rank r) (map (Analysis.set_rank RankVeto) l)
  = map (Analysis.set_rank r) l.
Proof. rewrite map_map. now apply map_ext. Qed.

Lemma not_vetoed_in (analyses : list Analysis.t) (a : Analysis.t) :
  In a (Quant.sort_desc (Props.not_vetoed analyses)) ->
  In a analyses /\ Analysis.veto a = false.
Proof.
  intro Ha. apply (Permutation_in _ (QuantFacts.sort_desc_perm _)) in Ha.
  apply filter_In in Ha. destruct Ha as [Hin Hv].
  split; [exact Hin | now apply negb_true_iff in Hv].
Qed.

(** [rank_horses] neither drops, repeats nor alters a horse: forgetting the
    key [rank], its output is a permutation of its input.  Every horse of
    the output has a rank, and that rank is the string VETO exactly for the
    horses whose veto flag is set. *)
Theorem rank_horses_keeps_horses (analyses : list Analysis.t) :
  let ranked := Quant.rank_horses analyses in
  Permutation (map (Analysis.set_rank RankVeto) ranked)
              (map (Analysis.set_rank RankVeto) analyses)
  /\ List.length ranked = List.length analyses
  /\ Forall (fun a => exists r, Analysis.rank a = Some r
                      /\ (r = RankVeto <-> Analysis.veto a = true)) ranked.
Proof.
  cbv zeta.
  assert (P : Permutation (map (Analysis.set_rank RankVeto)
                             (Quant.rank_horses analyses))
                          (map (Analysis.set_rank RankVeto) analyses)).
  { rewrite rank_horses_unfold, map_app, enumerate_rank_forget, set_rank_twice.
    rewrite <- map_app. apply Permutation_map.
    apply perm_trans with
      (Props.not_vetoed analyses ++ filter Analysis.veto analyses)%list.
    - apply Permutation_app_tail, QuantFacts.sort_desc_perm.
    - apply (BacktestFacts.filter_split_perm Analysis.veto). }
  split; [exact P|]. split.
  { apply Permutation_length in P. now rewrite !length_map in P. }
  rewrite rank_horses_unfold. apply Forall_app. split.
  - apply enumerate_rank_forall. intros i a Ha.
    apply not_vetoed_in in Ha. destruct Ha as [_ Hv].
    exists (RankN i). split; [reflexivity|].
    cbn [Analysis.set_rank Analysis.veto]. rewrite Hv.
    split; discriminate.
  - apply Forall_map, Forall_forall. intros a Ha.
    apply filter_In in Ha. destruct Ha as [_ Hv].
    exists RankVeto. split; [reflexivity|].
    cbn [Analysis.set_rank Analysis.veto]. now rewrite Hv.
Qed.

Lemma sort_desc_sorted_id (l : list Analysis.t) :
  StronglySorted Spec.score_ge l -> Quant.sort_desc l = l.
Proof.
  induction 1 as [|x l Hs IH Hx]; [reflexivity|].
  cbn [Quant.sort_desc fold_right]. fold (Quant.sort_desc l). rewrite IH.
  destruct l as [|y l']; [reflexivity|].
  cbn [Quant.insert_desc].
  inversion Hx as [|? ? Hy _]; subst. unfold Spec.score_ge in Hy.
  apply Qle_bool_iff in Hy. now rewrite Hy.
Qed.

Lemma enumerate_rank_sorted (l : list Analysis.t) (i : Z) :
  StronglySorted Spec.score_ge l ->
  StronglySorted Spec.score_ge (Quant.enumerate_rank i l).
Proof.
  intro Hs. revert i. induction Hs as [|x l Hs IH Hx]; intro i; cbn.
  - constructor.
  - constructor; [apply IH|].
    apply enumerate_rank_forall. intros j a Ha.
    rewrite Forall_forall in Hx. exact (Hx a Ha).
Qed.

Lemma enumerate_rank_twice (l : list Analysis.t) (i j : Z) :
  Quant.enumerate_rank i (Quant.enumerate_rank j l) = Quant.enumerate_rank i l.
Proof.
  revert i j. induction l as [|h rest IH]; intros i j; [reflexivity|].
  cbn [Quant.enumerate_rank]. now rewrite IH.
Qed.

(** Ranking a ranking again changes nothing: the sort is stable, so the
    horses keep their places, and they get the same ranks. *)
Theorem rank_horses_idempotent (analyses : list Analysis.t) :
  Quant.rank_horses (Quant.rank_horses analyses) = Quant.rank_horses analyses.
Proof.
  set (sorted := Quant.sort_desc (Props.not_vetoed analyses)).
  set (vetoed := filter Analysis.veto analyses).
  assert (E : Quant.rank_horses analyses
              = (Quant.enumerate_rank 1 sorted
                 ++ map (Analysis.set_rank RankVeto) vetoed)%list)
    by reflexivity.
  assert (Hv1 : Forall (fun a => Analysis.veto a = false)
                       (Quant.enumerate_rank 1 sorted)).
  { apply enumerate_rank_forall. intros i a Ha.
    now apply not_vetoed_in in Ha. }
  assert (Hv2 : Forall (fun a => Analysis.veto a = true)
                       (map (Analysis.set_rank RankVeto) vetoed)).
  { apply Forall_map, Forall_forall. intros a Ha.
    apply filter_In in Ha. now destruct Ha. }
  rewrite Forall_forall in Hv1, Hv2.
  rewrite (rank_horses_unfold (Quant.rank_horses analyses)), E.
  unfold Props.not_vetoed. rewrite !filter_app.
  rewrite (BacktestFacts.filter_all (fun a => negb (Analysis.veto a))
             (Quant.enumerate_rank 1 sorted))
    by (intros a Ha; now rewrite (Hv1 a Ha)).
  rewrite (BacktestFacts.filter_none (fun a => negb (Analysis.veto a))
             (map (Analysis.set_rank RankVeto) vetoed))
    by (intros a Ha; now rewrite (Hv2 a Ha)).
  rewrite (BacktestFacts.filter_none Analysis.veto (Quant.enumerate_rank 1 sorted))
    by exact Hv1.
  rewrite (BacktestFacts.filter_all Analysis.veto
             (map (Analysis.set_rank RankVeto) vetoed))
    by exact Hv2.
  rewrite app_nil_r. cbn [app].
  rewrite sort_desc_sorted_id
    by (apply enumerate_rank_sorted, QuantFacts.sort_desc_sorted).
  rewrite enumerate_rank_twice. f_equal.
  rewrite map_map. now apply map_ext.
Qed.

(** ** generate_trio_picks *)






(** A missing key does raise.  When at least three horses are not ranked
    VETO and the first of them is flagged dark-horse without the key
    [dark_horse_reason], the call raises KeyError for that key; when the
    first is not flagged, has [s1f_avg] above 14.0 and lacks [g1f_avg] (read
    as 0 by the test of the closer profile), it raises KeyError for
    [g1f_avg]. *)
Theorem generate_trio_picks_missing_key
    (ranked : list Horse.t) (entries_df : option (list (string * string)))
    (a b c : Horse.t) (others : list Horse.t) :
  Spec.non_vetoed ranked = a :: b :: c :: others ->
  (Horse.dark_horse a = Some true -> Horse.dark_horse_reason a = None ->
   Quant.generate_trio_picks ranked entries_df
   = Py.Raise (Py.KeyError "dark_horse_reason"))
  /\ (Horse.dark_horse a <> Some true -> Horse.g1f_avg a = None ->
      (exists s, Horse.s1f_avg a = Some s /\ 14.0 < s) ->
      Quant.generate_trio_picks ranked entries_df
      = Py.Raise (Py.KeyError "g1f_avg")).
Proof.
  intro V.
  assert (Ra : Horse.rank a <> Some RankVeto).
  { apply QuantFacts.non_vetoed_rank with ranked. rewrite V. now left. }
  split.
  - intros Hd Hr.
    unfold Quant.generate_trio_picks. rewrite QuantFacts.valid_filter, V.
    cbn [Py.for_each]. unfold Quant.dark_step at 1. rewrite Hd, Hr.
    reflexivity.
  - intros Hd Hg (s & Hs & Hlt).
    apply PyFacts.Qltb_true in Hlt.
    unfold Quant.generate_trio_picks. rewrite QuantFacts.valid_filter, V.
    cbn [Py.for_each]. unfold Quant.dark_step at 1, Quant.rank_above_3.
    rewrite Hg, Hs, Hlt.
    destruct (Horse.dark_horse a) as [[|]|]; try (now contradiction Hd);
      destruct (Py.option_eqb String.eqb (Horse.g1f_vector a) (Some "Strong"));
      try (destruct (Horse.rank a) as [[i|]|]; [| now contradiction Ra |]);
      cbn; try destruct (3 <? i)%Z; reflexivity.
Qed.

Lemma generate_trio_picks_missing_key_witness :
  let h flag reason :=
    Horse.mk (Some "A") None (Some (RankN 1)) flag reason None None None None in
  let ranked := [h (Some true) None; h None None; h None None] in
  Spec.non_vetoed ranked = ranked
  /\ Quant.generate_trio_picks ranked None
     = Py.Raise (Py.KeyError "dark_horse_reason").
Proof.
  cbv zeta. split; [reflexivity|].
  refine (proj1 (generate_trio_picks_missing_key _ None _ _ _ [] _) _ _);
    reflexivity.
Defined.

(** ** The combinations *)

Lemma set_add_NoDup (x : string) (s : list string) :
  NoDup s -> NoDup (Py.set_add x s).
Proof.
  intro H. unfold Py.set_add.
  destruct (Py.list_in String.eqb x s) eqn:E; [exact H|].
  apply NoDup_app; [exact H | repeat constructor; intros [] |].
  intros y Hy [<-|[]]. apply BacktestFacts.list_in_In in Hy. congruence.
Qed.

Lemma set_add_length (x : string) (s : list string) :
  (List.length s <= List.length (Py.set_add x s) <= S (List.length s))%nat.
Proof.
  unfold Py.set_add. destruct (Py.list_in String.eqb x s); [lia|].
  rewrite length_app. cbn. lia.
Qed.

Lemma set_add_nonempty (x : string) (s : list string) : Py.set_add x s <> [].
Proof.
  unfold Py.set_add. destruct (Py.list_in String.eqb x s) eqn:E.
  - destruct s; [discriminate E | discriminate].
  - destruct s; discriminate.
Qed.

Lemma fold_set_add {A : Type} (f : A -> string) (l : list A) (s : list string) :
  NoDup s ->
  NoDup (fold_left (fun s x => Py.set_add (f x) s) l s)
  /\ (List.length (fold_left (fun s x => Py.set_add (f x) s) l s)
      <= List.length s + List.length l)%nat.
Proof.
  revert s. induction l as [|x l IH]; intros s H; cbn [fold_left].
  - split; [exact H | cbn; lia].
  - destruct (IH (Py.set_add (f x) s) (set_add_NoDup _ _ H)) as [N L].
    split; [exact N|].
    pose proof (set_add_length (f x) s). cbn [List.length]. lia.
Qed.

Lemma insert_str_perm (x : string) (l : list string) :
  Permutation (Py.insert_str x l) (x :: l).
Proof.
  induction l as [|y l IH]; cbn; [apply Permutation_refl|].
  destruct (String.leb x y); [apply Permutation_refl|].
  apply perm_trans with (y :: x :: l); [now apply perm_skip | apply perm_swap].
Qed.

Lemma sorted_str_perm (l : list string) : Permutation (Py.sorted_str l) l.
Proof.
  induction l as [|x l IH]; cbn; [apply perm_nil|].
  apply perm_trans with (x :: Py.sorted_str l);
    [apply insert_str_perm | now apply perm_skip].
Qed.

Lemma insert_str_sorted (x : string) (l : list string) :
  Sorted Props.str_le l -> Sorted Props.str_le (Py.insert_str x l).
Proof.
  induction 1 as [|y l Hs IH Hy]; cbn.
  - repeat constructor.
  - destruct (String.leb x y) eqn:E.
    + constructor; [now constructor | now constructor].
    + assert (Hyx : Props.str_le y x).
      { destruct (String.leb_total x y) as [H|H]; [congruence | exact H]. }
      constructor; [exact IH|].
      destruct l as [|z l]; cbn.
      * now constructor.
      * destruct (String.leb x z); constructor; [exact Hyx|].
        now inversion Hy.
Qed.

Lemma sorted_str_sorted (l : list string) : Sorted Props.str_le (Py.sorted_str l).
Proof.
  induction l as [|x l IH]; cbn; [constructor | now apply insert_str_sorted].
Qed.

Lemma sorted_by_length {A : Type} (key : A -> Z) (l : list A) :
  List.length (Py.sorted_by key l) = List.length l.
Proof.
  induction l as [|x l IH]; [reflexivity|].
  cbn [Py.sorted_by fold_right]. fold (Py.sorted_by key l).
  assert (G : forall m, List.length (Py.insert_by key x m) = S (List.length m)).
  { induction m as [|y m IHm]; cbn; [reflexivity|].
    destruct (key x <=? key y)%Z; cbn; [reflexivity | now rewrite IHm]. }
  now rewrite G, IH.
Qed.

(** Whenever [generate_trio_picks] returns picks for at least three horses
    not ranked VETO: there is one axis; the partners are the two
    challengers followed by the further partners; the combinations are in
    ascending order without repeats and [num_bets] is their number, at
    least 1 and at most twice the number of further partners plus 1. *)
Theorem generate_trio_picks_combinations
    (ranked : list Horse.t) (entries_df : option (list (string * string)))
    (t : Trio.t) :
  Quant.generate_trio_picks ranked entries_df = Py.Ok t ->
  (3 <= List.length (Spec.non_vetoed ranked))%nat ->
  List.length (Trio.axis t) = 1%nat
  /\ (2 <= List.length (Trio.partners t))%nat
  /\ Trio.num_bets t = Z.of_nat (List.length (Trio.combinations t))
  /\ (1 <= Trio.num_bets t
      <= 2 * (Z.of_nat (List.length (Trio.partners t)) - 2) + 1)%Z
  /\ Sorted Props.str_le (Trio.combinations t)
  /\ NoDup (Trio.combinations t).
Proof.
  intros E Hlen. revert E.
  unfold Quant.generate_trio_picks. rewrite QuantFacts.valid_filter.
  destruct (Spec.non_vetoed ranked) as [|a [|b [|c others]]];
    try (cbn in Hlen; lia).
  set (hr_no_map := Quant.build_hr_no_map entries_df).
  set (no := Quant.get_hr_no hr_no_map).
  destruct (Py.for_each _ _ _) as [[dark partners_set]|e]; [|discriminate].
  cbn [Py.bind]. intro E. injection E as <-.
  cbn [Trio.axis Trio.partners Trio.combinations Trio.num_bets List.length
       nth Nat.leb fold_left].
  set (partners := Py.sorted_by Quant.hr_no_key partners_set).
  set (c1 := fold_left (fun combos part => Py.set_add (Quant.combo (no a) (no b) part) combos)
                       partners []).
  set (c2 := fold_left (fun combos part => Py.set_add (Quant.combo (no a) (no c) part) combos)
                       partners c1).
  set (combos := Py.set_add (Quant.combo (no a) (no b) (no c)) c2).
  destruct (fold_set_add (fun part => Quant.combo (no a) (no b) part) partners []
              (NoDup_nil _)) as [N1 L1].
  fold c1 in N1, L1.
  destruct (fold_set_add (fun part => Quant.combo (no a) (no c) part) partners c1 N1)
    as [N2 L2].
  fold c2 in N2, L2.
  pose proof (set_add_NoDup (Quant.combo (no a) (no b) (no c)) c2 N2) as N3.
  pose proof (set_add_length (Quant.combo (no a) (no b) (no c)) c2) as L3.
  pose proof (set_add_nonempty (Quant.combo (no a) (no b) (no c)) c2) as NE.
  fold combos in N3, L3, NE.
  pose proof (Permutation_length (sorted_str_perm combos)) as PL.
  split; [reflexivity|].
  split; [cbn; lia|].
  split; [reflexivity|].
  split.
  { rewrite PL. cbn [List.length app] in *.
    destruct combos as [|x xs]; [contradiction|]. cbn [List.length] in *. lia. }
  split; [apply sorted_str_sorted|].
  apply (Permutation_NoDup (Permutation_sym (sorted_str_perm combos)) N3).
Qed.

Lemma generate_trio_picks_combinations_witness :
  let ranked := Props.as_horses (Quant.rank_horses Sample.field) in
  exists t,
    Quant.generate_trio_picks ranked None = Py.Ok t
    /\ (3 <= List.length (Spec.non_vetoed ranked))%nat
    /\ Trio.num_bets t = 9%Z
    /\ Sorted Props.str_le (Trio.combinations t).
Proof.
  cbv zeta.
  set (ranked := Props.as_horses (Quant.rank_horses Sample.field)).
  set (t := match Quant.generate_trio_picks ranked None with
            | Py.Ok t => t
            | Py.Raise _ => Spec.insufficient
            end).
  assert (E : Quant.generate_trio_picks ranked None = Py.Ok t)
    by (vm_compute; reflexivity).
  assert (L : (3 <= List.length (Spec.non_vetoed ranked))%nat)
    by (vm_compute; lia).
  exists t. split; [exact E|]. split; [exact L|].
  split; [vm_compute; reflexivity|].
  exact (proj1 (proj2 (proj2 (proj2 (proj2
           (generate_trio_picks_combinations ranked None t E L)))))).
Defined.

(** ** The ranking handed to generate_trio_picks (app.py) *)






End RankingFacts.

(* ================================================================== *)
(** * Further properties of the simulation of one race *)
(* ================================================================== *)
Module RaceFacts.

Local Open Scope string_scope.
Local Open Scope Q_scope.

(** ** The dict of actual ranks *)

Lemma dict_get_set {V : Type} (k k' : string) (v : V) (d : list (string * V)) :
  Py.dict_get k (Py.dict_set k' v d)
  = if String.eqb k' k then Some v else Py.dict_get k d.
Proof.
  induction d as [|[k0 v0] d IH]; [reflexivity|].
  cbn [Py.dict_set Py.dict_get].
  destruct (String.eqb k0 k') eqn:E0.
  - apply String.eqb_eq in E0. subst k0. cbn [Py.dict_get].
    now destruct (String.eqb k' k).
  - cbn [Py.dict_get]. rewrite IH.
    destruct (String.eqb k0 k) eqn:E1; [|reflexivity].
    apply String.eqb_eq in E1. subst k0.
    now rewrite String.eqb_sym, E0.
Qed.

Lemma dict_get_none {V : Type} (k : string) (d : list (string * V)) :
  Py.dict_get k d = None -> ~ In k (map fst d).
Proof.
  induction d as [|[k0 v0] d IH]; intros H Hin; [exact Hin|].
  cbn in H, Hin. destruct Hin as [E|Hin].
  - subst k0. now rewrite String.eqb_refl in H.
  - destruct (String.eqb k0 k); [discriminate | now apply IH].
Qed.

Lemma dict_get_in {V : Type} (k : string) (v : V) (d : list (string * V)) :
  NoDup (map fst d) -> In (k, v) d -> Py.dict_get k d = Some v.
Proof.
  induction d as [|[k0 v0] d IH]; intros Hnd Hin0; [destruct Hin0|].
  destruct Hin0 as [E|Hin].
  - injection E as -> ->. cbn. now rewrite String.eqb_refl.
  - cbn in Hnd. inversion Hnd as [|? ? Hnot Hrest]; subst.
    cbn. destruct (String.eqb k0 k) eqn:E0; [|now apply IH].
    apply String.eqb_eq in E0. subst k0. exfalso. apply Hnot.
    change k with (fst (k, v)). now apply in_map.
Qed.

Lemma actual_ranks_fold (race_res : list Backtest.result_row) :
  Backtest._get_actual_ranks race_res
  = fold_left
      (fun ranks row =>
         match Props.row_entry row with
         | Some (name, a) => Py.dict_set name a ranks
         | None => ranks
         end) race_res [].
Proof.
  unfold Backtest._get_actual_ranks.
  apply ScorerFacts.fold_left_same. intros ranks row. unfold Props.row_entry.
  destruct (Backtest.row_ord row), (Backtest.row_winOdds row),
    (Backtest.row_plcOdds row), (Backtest.row_qui_div row),
    (Backtest.row_trio_div row); reflexivity.
Qed.

(** What [_get_actual_ranks] holds for a name is the value of the last row
    of that name whose conversions all succeed: a row that fails to convert
    is passed over, a later row replaces an earlier one, and the name is
    absent exactly when no such row exists. *)
Theorem actual_ranks_lookup (race_res : list Backtest.result_row) (name : string) :
  match Py.dict_get name (Backtest._get_actual_ranks race_res) with
  | Some a =>
      exists before row after,
        race_res = (before ++ row :: after)%list
        /\ Props.row_entry row = Some (name, a)
        /\ Forall (fun r => Props.row_for name r = false) after
  | None => Forall (fun r => Props.row_for name r = false) race_res
  end.
Proof.
  rewrite actual_ranks_fold.
  induction race_res as [|row rows IH] using rev_ind; [constructor|].
  rewrite fold_left_app. cbn [fold_left].
  set (ranks := fold_left _ rows []) in *.
  assert (Keep : Props.row_for name row = false ->
    match Py.dict_get name ranks with
    | Some a =>
        exists before row0 after,
          (rows ++ [row])%list = (before ++ row0 :: after)%list
          /\ Props.row_entry row0 = Some (name, a)
          /\ Forall (fun r => Props.row_for name r = false) after
    | None => Forall (fun r => Props.row_for name r = false) (rows ++ [row])
    end).
  { intro F. destruct (Py.dict_get name ranks) as [a|].
    - destruct IH as (before & row0 & after & E & Hrow & Hafter).
      exists before, row0, (after ++ [row])%list.
      split; [rewrite E, <- app_assoc; reflexivity|].
      split; [exact Hrow|].
      apply Forall_app. split; [exact Hafter | now repeat constructor].
    - apply Forall_app. split; [exact IH | now repeat constructor]. }
  unfold Props.row_for in Keep.
  destruct (Props.row_entry row) as [[n a]|] eqn:R; [|now apply Keep].
  rewrite dict_get_set.
  destruct (String.eqb n name) eqn:E; [|now apply Keep].
  apply String.eqb_eq in E. subst n.
  exists rows, row, []. repeat split; [exact R | constructor].
Qed.

(** ** The metrics of one race *)

Lemma race_metrics_fields (sel : Backtest.selection) (d : list (string * Backtest.actual)) :
  let o := Backtest.race_metrics sel d in
  let axis := Backtest.axis_horse sel in
  let data :=
    match Py.dict_get (Analysis.horse_name axis) d with
    | Some a => a
    | None => Backtest.mk_actual 99 0 0 0 0
    end in
  Backtest.horse o = Analysis.horse_name axis
  /\ Backtest.pred_score o = Analysis.total_score axis
  /\ Backtest.is_veto o = Analysis.veto axis
  /\ Backtest.actual_rank o = Backtest.rank data
  /\ Backtest.is_hit o = (Backtest.rank data <=? 3)%Z
  /\ Backtest.is_win_hit o = (Backtest.rank data =? 1)%Z
  /\ Backtest.win_return o
     = (if (Backtest.rank data =? 1)%Z then Backtest.winOdds data else 0)
  /\ (Backtest.is_qui_hit o = false -> Backtest.qui_return o = 0)
  /\ (Backtest.is_trio_hit o = false -> Backtest.trio_return o = 0).
Proof.
  cbv zeta. unfold Backtest.race_metrics.
  destruct (Py.list_in Backtest.name_eqb _ [_; _]);
    [destruct (Backtest.in_picks _ _)|];
    destruct (Py.list_in Backtest.name_eqb _ [_; _; _]);
    try destruct (_ =? 2)%nat; cbn;
    repeat split; try reflexivity; discriminate.
Qed.

Lemma name_of_rank_key (r : Z) (d : list (string * Backtest.actual)) (n : string) :
  Backtest.name_of_rank r d = Some n -> In n (map fst d).
Proof.
  intro H. apply BacktestFacts.name_of_rank_some in H.
  destruct H as (data & Hin & _).
  change n with (fst (n, data)). now apply in_map.
Qed.

Lemma axis_in_names (axis : string) (names : list (option string)) :
  Py.list_in Backtest.name_eqb (Some axis) names = true -> In (Some axis) names.
Proof.
  unfold Py.list_in. rewrite existsb_exists. intros (x & Hx & E).
  apply BacktestFacts.name_eqb_true in E. now subst.
Qed.

(** An axis horse the results do not list counts as finishing 99th: the
    race is a miss for the place, win, quinella and trio bets alike, and
    every return is 0. *)
Theorem race_metrics_unlisted_axis
    (sel : Backtest.selection) (actual_ranks : list (string * Backtest.actual)) :
  Py.dict_get (Analysis.horse_name (Backtest.axis_horse sel)) actual_ranks = None ->
  let o := Backtest.race_metrics sel actual_ranks in
  Backtest.actual_rank o = 99%Z
  /\ Backtest.is_hit o = false /\ Backtest.is_win_hit o = false
  /\ Backtest.is_qui_hit o = false /\ Backtest.is_trio_hit o = false
  /\ Backtest.win_return o = 0 /\ Backtest.qui_return o = 0
  /\ Backtest.trio_return o = 0.
Proof.
  intros Hget o.
  destruct (race_metrics_fields sel actual_ranks)
    as (_ & _ & _ & Hr & Hh & Hw & Hwr & Hq & Ht).
  fold o in Hr, Hh, Hw, Hwr, Hq, Ht. rewrite Hget in *. cbn in Hr, Hh, Hw, Hwr.
  assert (No : forall names,
            Forall (fun n => exists r, n = Backtest.name_of_rank r actual_ranks) names ->
            Py.list_in Backtest.name_eqb
              (Some (Analysis.horse_name (Backtest.axis_horse sel))) names = false).
  { intros names Hn. destruct (Py.list_in _ _ names) eqn:E; [|reflexivity].
    apply axis_in_names in E. rewrite Forall_forall in Hn.
    destruct (Hn _ E) as (r & Er). symmetry in Er.
    apply name_of_rank_key in Er. now apply dict_get_none in Hget. }
  assert (Q : Backtest.is_qui_hit o = false).
  { subst o. rewrite BacktestFacts.is_qui_hit_eq. cbv zeta.
    rewrite No; [reflexivity|]. repeat constructor; eexists; reflexivity. }
  assert (T : Backtest.is_trio_hit o = false).
  { subst o. rewrite BacktestFacts.is_trio_hit_eq. cbv zeta.
    rewrite No; [reflexivity|]. repeat constructor; eexists; reflexivity. }
  repeat split; auto.
Qed.

Lemma race_metrics_unlisted_axis_witness :
  let sel := Backtest.mk_selection (Sample.runner "A" "1" 50 13 13 false false) [] [] in
  let actual_ranks := [("B", Backtest.mk_actual 1 2.5 1.2 8.0 30.0)] in
  Py.dict_get "A" actual_ranks = None
  /\ Backtest.actual_rank (Backtest.race_metrics sel actual_ranks) = 99%Z.
Proof.
  cbv zeta. split; [reflexivity|].
  refine (proj1 (race_metrics_unlisted_axis _ _ _)). reflexivity.
Defined.

Lemma rank_of_named (race_res : list Backtest.result_row) (r : Z) (n : string) :
  Backtest.name_of_rank r (Backtest._get_actual_ranks race_res) = Some n ->
  exists data,
    Py.dict_get n (Backtest._get_actual_ranks race_res) = Some data
    /\ Backtest.rank data = r.
Proof.
  intro H. apply BacktestFacts.name_of_rank_some in H.
  destruct H as (data & Hin & Hr). exists data. split; [|exact Hr].
  apply dict_get_in; [apply BacktestFacts.actual_ranks_NoDup | exact Hin].
Qed.

(** On the actual ranks read from the results, the quinella hit needs the
    axis horse first or second and the trio hit needs it in the first
    three; so a race that misses the place bet misses the win, quinella and
    trio bets too and returns nothing. *)
Theorem hits_need_placed_axis
    (sel : Backtest.selection) (race_res : list Backtest.result_row) :
  let o := Backtest.race_metrics sel (Backtest._get_actual_ranks race_res) in
  (Backtest.is_qui_hit o = true ->
   Backtest.actual_rank o = 1%Z \/ Backtest.actual_rank o = 2%Z)
  /\ (Backtest.is_trio_hit o = true ->
      Backtest.actual_rank o = 1%Z \/ Backtest.actual_rank o = 2%Z
      \/ Backtest.actual_rank o = 3%Z)
  /\ (Backtest.is_hit o = false ->
      Backtest.is_win_hit o = false /\ Backtest.is_qui_hit o = false
      /\ Backtest.is_trio_hit o = false
      /\ Backtest.win_return o = 0 /\ Backtest.qui_return o = 0
      /\ Backtest.trio_return o = 0).
Proof.
  intro o. set (d := Backtest._get_actual_ranks race_res) in *.
  set (axis := Analysis.horse_name (Backtest.axis_horse sel)).
  destruct (race_metrics_fields sel d)
    as (_ & _ & _ & Hr & Hh & Hw & Hwr & Hq & Ht).
  fold o axis in Hr, Hh, Hw, Hwr, Hq, Ht.
  assert (Named : forall r, Backtest.name_of_rank r d = Some axis ->
                            Backtest.actual_rank o = r).
  { intros r E. apply rank_of_named in E. destruct E as (data & G & R).
    fold d in G. rewrite Hr, G. exact R. }
  assert (Qui : Backtest.is_qui_hit o = true ->
                Backtest.actual_rank o = 1%Z \/ Backtest.actual_rank o = 2%Z).
  { subst o. rewrite BacktestFacts.is_qui_hit_eq. cbv zeta. fold d axis.
    destruct (Py.list_in _ _ _) eqn:E; [|discriminate]. intros _.
    apply axis_in_names in E.
    destruct E as [E|[E|[]]]; apply Named in E; auto. }
  assert (Trio : Backtest.is_trio_hit o = true ->
                 Backtest.actual_rank o = 1%Z \/ Backtest.actual_rank o = 2%Z
                 \/ Backtest.actual_rank o = 3%Z).
  { subst o. rewrite BacktestFacts.is_trio_hit_eq. cbv zeta. fold d axis.
    destruct (Py.list_in _ _ _) eqn:E; [|discriminate]. intros _.
    apply axis_in_names in E.
    destruct E as [E|[E|[E|[]]]]; apply Named in E; auto. }
  split; [exact Qui|]. split; [exact Trio|].
  intro Miss. rewrite Hh in Miss. apply Z.leb_gt in Miss. rewrite <- Hr in Miss.
  assert (W : Backtest.is_win_hit o = false).
  { rewrite Hw, <- Hr. apply Z.eqb_neq. lia. }
  assert (Q : Backtest.is_qui_hit o = false).
  { destruct (Backtest.is_qui_hit o); [|reflexivity].
    destruct (Qui eq_refl); lia. }
  assert (T : Backtest.is_trio_hit o = false).
  { destruct (Backtest.is_trio_hit o); [|reflexivity].
    destruct (Trio eq_refl) as [|[|]]; lia. }
  repeat split; auto.
  rewrite Hwr. rewrite Hw in W. now rewrite W.
Qed.


(** ** The selection *)

Lemma in_firstn {A : Type} (n : nat) (l : list A) (x : A) :
  In x (firstn n l) -> In x l.
Proof.
  intro H. rewrite <- (firstn_skipn n l). apply in_or_app. now left.
Qed.


(** [select_horses] raises IndexError on an empty ranking and on no other.
    Otherwise the axis is the first of the ranking and the challengers are
    the next two; there are at most three dark horses, each of them a horse
    of the rest of the ranking that is not equal, as a dict, to a
    challenger; so at most six horses are selected. *)
Theorem select_horses_shape (ranked : list Analysis.t) :
  match Backtest.select_horses ranked with
  | Py.Raise e => e = Py.IndexError /\ ranked = []
  | Py.Ok sel =>
      hd_error ranked = Some (Backtest.axis_horse sel)
      /\ Backtest.challengers sel = firstn 2 (tl ranked)
      /\ (List.length (Backtest.dark_horses sel) <= 3)%nat
      /\ Forall (fun h => In h (tl ranked)
                          /\ Backtest.not_in h (Backtest.challengers sel) = true)
                (Backtest.dark_horses sel)
      /\ (List.length (Backtest.selected_horses sel) <= 6)%nat
  end.
Proof.
  destruct ranked as [|axis others]; [split; reflexivity|].
  unfold Backtest.select_horses.
  rewrite BacktestFacts.no_dark_candidates.
  change (firstn 3 (@nil Analysis.t)) with (@nil Analysis.t).
  rewrite (BacktestFacts.filter_all (fun h => Backtest.not_in h []) others)
    by reflexivity.
  cbn [List.length Nat.ltb Nat.leb Nat.sub app].
  unfold Backtest.selected_horses.
  cbn [Backtest.axis_horse Backtest.challengers Backtest.dark_horses hd_error tl].
  set (challengers := firstn 2 others).
  set (extras := filter (fun h => Backtest.not_in h challengers) others).
  assert (L2 : (List.length challengers <= 2)%nat) by apply firstn_le_length.
  assert (L3 : (List.length (firstn 3 extras) <= 3)%nat) by apply firstn_le_length.
  split; [reflexivity|]. split; [reflexivity|]. split; [exact L3|].
  split.
  - apply Forall_forall. intros h Hh. apply in_firstn in Hh.
    subst extras. apply filter_In in Hh. exact Hh.
  - cbn [List.length]. rewrite length_app. lia.
Qed.

(** ** One race *)

Lemma rank_horses_head (analyses : list Analysis.t) :
  match Quant.rank_horses analyses with
  | [] => analyses = []
  | axis :: _ =>
      exists a, In a analyses
        /\ Analysis.horse_name axis = Analysis.horse_name a
        /\ Analysis.total_score axis = Analysis.total_score a
        /\ Analysis.veto axis = Analysis.veto a
        /\ (Analysis.veto a = true ->
            Forall (fun b => Analysis.veto b = true) analyses)
        /\ (Analysis.veto a = false ->
            forall b, In b analyses -> Analysis.veto b = false ->
              Analysis.total_score b <= Analysis.total_score a)
  end.
Proof.
  rewrite RankingFacts.rank_horses_unfold.
  pose proof (QuantFacts.sort_desc_sorted (Props.not_vetoed analyses)) as Hs.
  pose proof (QuantFacts.sort_desc_perm (Props.not_vetoed analyses)) as Hp.
  destruct (Quant.sort_desc (Props.not_vetoed analyses)) as [|best rest].
  - apply Permutation_nil in Hp.
    assert (All : Forall (fun b => Analysis.veto b = true) analyses).
    { apply Forall_forall. intros b Hb.
      destruct (Analysis.veto b) eqn:V; [reflexivity|].
      assert (Hin : In b (Props.not_vetoed analyses)).
      { apply filter_In. split; [exact Hb | now rewrite V]. }
      rewrite Hp in Hin. destruct Hin. }
    cbn [Quant.enumerate_rank app].
    rewrite (BacktestFacts.filter_all Analysis.veto analyses)
      by (now apply Forall_forall).
    destruct analyses as [|a rest]; [reflexivity|].
    cbn [map]. exists a. split; [now left|].
    inversion All as [|? ? Va _]; subst.
    repeat split; try reflexivity.
    + intros _. exact All.
    + intro V. congruence.
  - cbn [Quant.enumerate_rank app].
    assert (Hb : In best (Props.not_vetoed analyses)).
    { apply (Permutation_in _ Hp). now left. }
    apply filter_In in Hb. destruct Hb as [Hin Hv].
    apply negb_true_iff in Hv.
    exists best. split; [exact Hin|].
    repeat split; try reflexivity.
    + intro V. congruence.
    + intros _ b Hb Vb.
      assert (Hin' : In b (best :: rest)).
      { apply (Permutation_in _ (Permutation_sym Hp)).
        apply filter_In. split; [exact Hb | now rewrite Vb]. }
      destruct Hin' as [<-|Hin']; [apply Qle_refl|].
      inversion Hs as [|? ? _ Hall]; subst.
      rewrite Forall_forall in Hall. exact (Hall b Hin').
Qed.



(** ** The verdict of the collaborator *)

Lemma alike_filter (p : Analysis.t -> bool) (l1 l2 : list Analysis.t) :
  (forall a b, Props.alike a b -> p a = p b) ->
  Forall2 Props.alike l1 l2 -> Forall2 Props.alike (filter p l1) (filter p l2).
Proof.
  intros Hp. induction 1 as [|a b l1 l2 Hab _ IH]; [constructor|].
  cbn. rewrite (Hp a b Hab). destruct (p b); [now constructor | exact IH].
Qed.

Lemma alike_insert (a b : Analysis.t) (l1 l2 : list Analysis.t) :
  Props.alike a b -> Forall2 Props.alike l1 l2 ->
  Forall2 Props.alike (Quant.insert_desc a l1) (Quant.insert_desc b l2).
Proof.
  intros Hab. induction 1 as [|x y l1 l2 Hxy Hl IH]; cbn.
  - constructor; [exact Hab | constructor].
  - pose proof Hab as (_ & Tab & _). pose proof Hxy as (_ & Txy & _).
    rewrite Tab, Txy.
    destruct (Qle_bool _ _).
    + constructor; [exact Hab|]. constructor; [exact Hxy | exact Hl].
    + constructor; [exact Hxy | exact IH].
Qed.

Lemma alike_sort (l1 l2 : list Analysis.t) :
  Forall2 Props.alike l1 l2 -> Forall2 Props.alike (Quant.sort_desc l1) (Quant.sort_desc l2).
Proof.
  induction 1 as [|a b l1 l2 Hab _ IH]; [constructor|].
  cbn [Quant.sort_desc fold_right]. now apply alike_insert.
Qed.

Lemma alike_enumerate (l1 l2 : list Analysis.t) (i : Z) :
  Forall2 Props.alike l1 l2 ->
  Forall2 Props.same_standing (Quant.enumerate_rank i l1) (Quant.enumerate_rank i l2).
Proof.
  intro H. revert i. induction H as [|a b l1 l2 (N & T & V) _ IH]; intro i; cbn.
  - constructor.
  - constructor; [now repeat split | apply IH].
Qed.

Lemma alike_vetoed (l1 l2 : list Analysis.t) :
  Forall2 Props.alike l1 l2 ->
  Forall2 Props.same_standing (map (Analysis.set_rank RankVeto) l1)
                              (map (Analysis.set_rank RankVeto) l2).
Proof.
  induction 1 as [|a b l1 l2 (N & T & V) _ IH]; cbn; constructor;
    [now repeat split | exact IH].
Qed.

Lemma alike_rank_horses (l1 l2 : list Analysis.t) :
  Forall2 Props.alike l1 l2 ->
  Forall2 Props.same_standing (Quant.rank_horses l1) (Quant.rank_horses l2).
Proof.
  intro H. rewrite !RankingFacts.rank_horses_unfold.
  apply Forall2_app.
  - apply alike_enumerate, alike_sort, alike_filter; [|exact H].
    intros a b (_ & _ & V). now rewrite V.
  - apply alike_vetoed, alike_filter; [|exact H].
    intros a b (_ & _ & V). exact V.
Qed.

Lemma alike_without_ai (analyzer : Quant.analyzer) (x : Backtest.horse_input) :
  Props.alike (Backtest.analyze_entry analyzer x)
        (Backtest.analyze_entry analyzer (Props.without_ai x)).
Proof.
  unfold Backtest.analyze_entry, Props.without_ai.
  cbn [Backtest.in_horse_name Backtest.in_history Backtest.in_train_recs
       Backtest.in_weight Backtest.in_weight_diff Backtest.in_st_reports
       Backtest.in_ai_reason].
  destruct (Backtest.in_st_reports x) as [|rpt rest];
    [now repeat split|].
  destruct (Backtest.in_ai_reason x); now repeat split.
Qed.

(** The verdict of the language-model collaborator never moves a horse in
    the ranking: the 20 points it adds to the interference score come after
    the total score is computed.  Ranking the analyses of a group gives the
    same names, total scores, veto flags and ranks, place by place, as
    ranking the analyses of the group without any verdict. *)
Theorem ai_verdict_keeps_ranking
    (analyzer : Quant.analyzer) (group : list Backtest.horse_input) :
  Forall2 Props.same_standing
    (Quant.rank_horses (map (Backtest.analyze_entry analyzer) group))
    (Quant.rank_horses
       (map (Backtest.analyze_entry analyzer) (map Props.without_ai group))).
Proof.
  apply alike_rank_horses.
  induction group as [|x rest IH]; cbn [map]; constructor;
    [apply alike_without_ai | exact IH].
Qed.


End RaceFacts.

(* ================================================================== *)
(** * Further properties of the backtest loop and the tuner *)
(* ================================================================== *)
Module RunFacts.

Local Open Scope string_scope.
Local Open Scope Q_scope.

(** ** The counters *)

Lemma veto_fold (d : list (string * Backtest.actual)) (sims : list Analysis.t) :
  forall total failed : Z,
  (0 <= failed <= total)%Z ->
  exists t f : Z,
    fold_left (Run.veto_step d) sims (total, failed) = (t, f)
    /\ (0 <= f <= t)%Z.
Proof.
  induction sims as [|horse rest IH]; intros total failed H.
  - now exists total, failed.
  - cbn [fold_left]. unfold Run.veto_step at 2.
    destruct (Analysis.veto horse); [|now apply IH].
    destruct (3 <? _)%Z; apply IH; lia.
Qed.

Lemma select_horses_empty (ranked : list Analysis.t) (e : Py.exn) :
  Backtest.select_horses ranked = Py.Raise e -> e = Py.IndexError /\ ranked = [].
Proof.
  destruct ranked; [|discriminate]. cbn. intro E. injection E as <-. now split.
Qed.

Lemma rank_horses_nil (analyses : list Analysis.t) :
  Quant.rank_horses analyses = [] -> analyses = [].
Proof.
  intro E. pose proof (RaceFacts.rank_horses_head analyses) as H.
  now rewrite E in H.
Qed.

Lemma has_results_false (rc : Run.race) :
  Props.has_results rc = false ->
  Backtest._get_actual_ranks (Run.r_race_res rc) = [].
Proof.
  unfold Props.has_results.
  now destruct (Backtest._get_actual_ranks (Run.r_race_res rc)).
Qed.

(** One turn of the loop over the races. *)
Lemma race_step_cases (analyzer : Quant.analyzer) (rc : Run.race) (st : Run.state) :
  match Run.race_step analyzer rc st with
  | Py.Ok st' =>
      (Props.has_results rc = false /\ st' = st)
      \/ (Props.has_results rc = true /\ Run.r_group rc <> []
          /\ (exists o, Run.results st'
                        = (Run.results st
                           ++ [(Run.r_date rc, Run.r_race_no rc, o)])%list)
          /\ (Props.counters_ok st -> Props.counters_ok st'))
  | Py.Raise e =>
      e = Py.IndexError /\ Props.has_results rc = true /\ Run.r_group rc = []
  end.
Proof.
  unfold Run.race_step, Props.has_results.
  destruct (Backtest._get_actual_ranks (Run.r_race_res rc)) as [|entry entries];
    [now left|].
  set (d := entry :: entries).
  set (sims := map (Backtest.analyze_entry analyzer) (Run.r_group rc)).
  destruct (Backtest.select_horses (Quant.rank_horses sims)) as [sel|e] eqn:S.
  - cbn [Py.bind].
    assert (Hne : Run.r_group rc <> []).
    { intro E. subst sims. rewrite E in S. discriminate S. }
    destruct (fold_left (Run.veto_step d) sims (Run.veto_total st, Run.veto_failed st))
      as [total failed] eqn:F.
    right. split; [reflexivity|]. split; [exact Hne|].
    split; [eexists; reflexivity|].
    intros [Hv Hw]. unfold Props.counters_ok.
    cbn [Run.veto_failed Run.veto_total Run.w_bonus_hit Run.w_bonus_total].
    split.
    + destruct (veto_fold d sims _ _ Hv) as (t & f & E & H).
      rewrite F in E. injection E as -> ->. exact H.
    + destruct (0 <? _)%Z; cbn [andb]; [destruct (Backtest.is_hit _)|]; lia.
  - cbn [Py.bind]. apply select_horses_empty in S. destruct S as [-> S].
    split; [reflexivity|]. split; [reflexivity|].
    apply rank_horses_nil in S. subst sims.
    destruct (Run.r_group rc); [reflexivity | discriminate S].
Qed.

(** The loop over the races, from any state. *)
Lemma run_loop (analyzer : Quant.analyzer) (races : list Run.race) :
  forall st : Run.state,
  match Py.for_each (Run.race_step analyzer) races st with
  | Py.Ok st' =>
      (Props.counters_ok st -> Props.counters_ok st')
      /\ List.length (Run.results st')
         = (List.length (Run.results st)
            + List.length (filter Props.has_results races))%nat
      /\ Forall (fun rc => Props.has_results rc = true -> Run.r_group rc <> [])
                races
  | Py.Raise e =>
      e = Py.IndexError
      /\ exists rc, In rc races /\ Props.has_results rc = true
                    /\ Run.r_group rc = []
  end.
Proof.
  induction races as [|rc rest IH]; intro st.
  - cbn. split; [tauto|]. split; [lia | constructor].
  - cbn [Py.for_each filter].
    pose proof (race_step_cases analyzer rc st) as Hstep.
    destruct (Run.race_step analyzer rc st) as [st1|e]; cbn [Py.bind].
    + specialize (IH st1).
      destruct (Py.for_each (Run.race_step analyzer) rest st1) as [st'|e].
      * destruct IH as (Hc & Hl & Hg).
        destruct Hstep as [[Hr ->]|(Hr & Hne & (o & Ho) & Hc1)]; rewrite Hr.
        -- split; [exact Hc|]. split; [exact Hl|].
           constructor; [congruence | exact Hg].
        -- split; [tauto|]. split.
           ++ rewrite Hl, Ho, length_app. cbn [List.length]. lia.
           ++ constructor; [intros _; exact Hne | exact Hg].
      * destruct IH as (He & rc' & Hin & Hr & Hg).
        split; [exact He|]. exists rc'. split; [now right | now split].
    + destruct Hstep as (He & Hr & Hg).
      split; [exact He|]. exists rc. split; [now left | now split].
Qed.


(** Races without actual ranks leave no trace: the report of [run] is that
    of the races that have them. *)
Theorem run_skips_races_without_results
    (analyzer : Quant.analyzer) (races : list Run.race) :
  Run.run analyzer races = Run.run analyzer (filter Props.has_results races).
Proof.
  unfold Run.run. f_equal. generalize Run.initial.
  induction races as [|rc rest IH]; intro st; [reflexivity|].
  cbn [Py.for_each filter].
  destruct (Props.has_results rc) eqn:Hr.
  - cbn [Py.for_each]. destruct (Run.race_step analyzer rc st); cbn [Py.bind];
      [apply IH | reflexivity].
  - unfold Run.race_step at 1. rewrite (has_results_false rc Hr).
    cbn [Py.bind]. apply IH.
Qed.

(** ** The percentages *)

Lemma ratio_percent (a n : Z) :
  (0 <= a <= n)%Z -> (0 < n)%Z ->
  Props.percent (inject_Z a / inject_Z n * 100).
Proof.
  intros Ha Hn.
  assert (N : 0 < inject_Z n) by (change 0 with (inject_Z 0); now rewrite <- Zlt_Qlt).
  assert (A : 0 <= inject_Z a) by (change 0 with (inject_Z 0); rewrite <- Zle_Qle; lia).
  assert (B : inject_Z a <= inject_Z n) by (rewrite <- Zle_Qle; lia).
  assert (L : 0 <= inject_Z a / inject_Z n).
  { apply Qle_shift_div_l; [exact N|]. lra. }
  assert (U : inject_Z a / inject_Z n <= 1).
  { apply Qle_shift_div_r; [exact N|]. lra. }
  unfold Props.percent. split; lra.
Qed.

Lemma rate_percent (part whole : Z) :
  (0 <= part <= whole)%Z -> Props.percent (Run.rate part whole).
Proof.
  intro H. unfold Run.rate. destruct (0 <? whole)%Z eqn:W.
  - apply ratio_percent; [exact H | now apply Z.ltb_lt].
  - unfold Props.percent. split; lra.
Qed.

(** The three percentages [run] reports lie between 0 and 100. *)
Theorem run_metrics_percent
    (analyzer : Quant.analyzer) (races : list Run.race) (m : Run.metrics) :
  Run.run analyzer races = Py.Ok (Some m) ->
  Props.percent (Run.hit_rate m)
  /\ Props.percent (Run.veto_accuracy m)
  /\ Props.percent (Run.w_bonus_accuracy m).
Proof.
  unfold Run.run. pose proof (run_loop analyzer races Run.initial) as H.
  destruct (Py.for_each (Run.race_step analyzer) races Run.initial) as [st|e];
    cbn [Py.bind]; [|discriminate].
  destruct H as (Hc & _).
  destruct Hc as [Hv Hw]; [unfold Props.counters_ok; cbn; lia|].
  unfold Run.final_report.
  destruct (Run.results st) as [|row rows] eqn:R; [discriminate|].
  intro E. injection E as <-.
  cbn [Run.hit_rate Run.veto_accuracy Run.w_bonus_accuracy].
  split; [|split; apply rate_percent; assumption].
  unfold Run.accuracy. apply ratio_percent; [|cbn [List.length]; lia].
  split; [lia|]. apply inj_le, filter_length_le.
Qed.

Lemma run_metrics_percent_witness :
  let horse name diff := Backtest.mk_input name [] [] 470 diff [] None in
  let row ord name :=
    Backtest.mk_row (Some ord) name (Some 2.5) (Some 1.2) (Some 8.0) (Some 30.0) in
  let races :=
    [Run.mk_race "20250104" 1 [horse "A" 0; horse "B" 2; horse "C" (-10)]
                 [row 1%Z "A"; row 2%Z "B"; row 3%Z "C"];
     Run.mk_race "20250104" 2 [horse "D" 0; horse "E" 1]
                 [row 1%Z "E"; row 4%Z "D"]] in
  exists m,
    Run.run Quant.default races = Py.Ok (Some m)
    /\ Run.total_races m = 2%Z
    /\ Props.percent (Run.hit_rate m).
Proof.
  cbv zeta.
  set (races := [Run.mk_race _ 1 _ _; Run.mk_race _ 2 _ _]).
  set (m := match Run.run Quant.default races with
            | Py.Ok (Some m) => m
            | _ => Run.mk_metrics 0 0 0 0
            end).
  assert (E : Run.run Quant.default races = Py.Ok (Some m))
    by (vm_compute; reflexivity).
  exists m. split; [exact E|]. split; [vm_compute; reflexivity|].
  exact (proj1 (run_metrics_percent Quant.default races m E)).
Defined.

(** ** tune_parameters *)

(** The search, from any best score and params so far. *)
Lemma search_from
    (objective : Quant.analyzer -> Py.result (option Run.metrics))
    (candidates : list Quant.analyzer) :
  forall (b0 : Q) (p0 : option Quant.analyzer),
  match Py.for_each (Run.tune_step objective) candidates (b0, p0) with
  | Py.Ok (b, p) =>
      (forall c, In c candidates ->
         exists r, objective c = Py.Ok r /\ Props.score_of r <= b)
      /\ b0 <= b
      /\ ((b = b0 /\ p = p0)
          \/ (b0 < b
              /\ exists i c r,
                   nth_error candidates i = Some c /\ p = Some c
                   /\ objective c = Py.Ok r /\ Props.score_of r = b
                   /\ forall j q r', (j < i)%nat ->
                        nth_error candidates j = Some q ->
                        objective q = Py.Ok r' -> Props.score_of r' < b))
  | Py.Raise e => exists c, In c candidates /\ objective c = Py.Raise e
  end.
Proof.
  induction candidates as [|c cs IH]; intros b0 p0.
  - cbn. split; [intros c []|]. split; [apply Qle_refl|]. now left.
  - cbn [Py.for_each]. unfold Run.tune_step at 1.
    destruct (objective c) as [r|e] eqn:O; cbn [Py.bind];
      [|exists c; split; [now left | exact O]].
    change (match r with Some m => Run.hit_rate m | None => 0 end)
      with (Props.score_of r).
    cbn [fst]. destruct (Py.Qltb b0 (Props.score_of r)) eqn:L; cbn [Py.bind].
    + apply PyFacts.Qltb_true in L.
      specialize (IH (Props.score_of r) (Some c)).
      destruct (Py.for_each (Run.tune_step objective) cs (Props.score_of r, Some c))
        as [[b p]|e].
      * destruct IH as (Hall & Hle & Hcase).
        split.
        { intros c' [<-|Hin]; [exists r; now split | now apply Hall]. }
        split; [lra|]. right. split; [lra|].
        destruct Hcase as [[Eb Ep]|(Hlt & i & c' & r' & Hn & Hp & Ho & Hs & Hprev)].
        -- exists 0%nat, c, r. subst b p. repeat split; try assumption.
           intros j q r' Hj. lia.
        -- exists (S i), c', r'. repeat split; try assumption.
           intros [|j] q r0 Hj Hq Hr0.
           ++ cbn in Hq. injection Hq as <-. rewrite O in Hr0.
              injection Hr0 as <-. exact Hlt.
           ++ apply (Hprev j q r0); [lia | exact Hq | exact Hr0].
      * destruct IH as (c' & Hin & Hc'). exists c'. split; [now right | exact Hc'].
    + apply PyFacts.Qltb_false in L.
      specialize (IH b0 p0).
      destruct (Py.for_each (Run.tune_step objective) cs (b0, p0)) as [[b p]|e].
      * destruct IH as (Hall & Hle & Hcase).
        split.
        { intros c' [<-|Hin]; [exists r; split; [exact O | lra] | now apply Hall]. }
        split; [exact Hle|].
        destruct Hcase as [Same|(Hlt & i & c' & r' & Hn & Hp & Ho & Hs & Hprev)];
          [now left|].
        right. split; [exact Hlt|].
        exists (S i), c', r'. repeat split; try assumption.
        intros [|j] q r0 Hj Hq Hr0.
        -- cbn in Hq. injection Hq as <-. rewrite O in Hr0.
           injection Hr0 as <-. lra.
        -- apply (Hprev j q r0); [lia | exact Hq | exact Hr0].
      * destruct IH as (c' & Hin & Hc'). exists c'. split; [now right | exact Hc'].
Qed.

(** What the grid search of [tune_parameters] ends with, [run] on the
    tuning window being any function of the params.  If a run raises, so
    does the search.  Otherwise every candidate of the grid was run, the
    best score is not negative and no candidate scored more; the best
    params stay the empty dict exactly when the best score is 0, that is
    when no candidate scored above 0; and otherwise they are those of the
    first candidate of the grid that reaches the best score. *)
Theorem tune_parameters_best
    (objective : Quant.analyzer -> Py.result (option Run.metrics)) :
  match Run.tune_parameters objective with
  | Py.Ok (best_score, best_params) =>
      (forall c, In c Run.grid ->
         exists r, objective c = Py.Ok r /\ Props.score_of r <= best_score)
      /\ 0 <= best_score
      /\ match best_params with
         | None => best_score = 0
         | Some c =>
             0 < best_score
             /\ exists i r,
                  nth_error Run.grid i = Some c
                  /\ objective c = Py.Ok r /\ Props.score_of r = best_score
                  /\ forall j q r', (j < i)%nat ->
                       nth_error Run.grid j = Some q ->
                       objective q = Py.Ok r' -> Props.score_of r' < best_score
         end
  | Py.Raise e => exists c, In c Run.grid /\ objective c = Py.Raise e
  end.
Proof.
  unfold Run.tune_parameters, Run.search.
  pose proof (search_from objective Run.grid 0 None) as H.
  destruct (Py.for_each (Run.tune_step objective) Run.grid (0, None))
    as [[b p]|e]; [|exact H].
  destruct H as (Hall & Hle & Hcase).
  split; [exact Hall|]. split; [exact Hle|].
  destruct Hcase as [[-> ->]|(Hlt & i & c & r & Hn & -> & Ho & Hs & Hprev)];
    [reflexivity|].
  split; [exact Hlt|]. exists i, r. repeat split; assumption.
Qed.


End RunFacts.
